(** * The Mem0 memory gateway of ProjectZ ([src/mem0_service/main.py])

    A shallow embedding of the six request handlers of the service and of
    the Python values they shuffle between the HTTP layer and the wrapped
    memory engine, followed by the properties the specification states
    about them.

    Layout: Python values and the builtins the handlers use; the engine
    boundary (calls, outcomes, the interaction monad); the handlers, in the
    order of [main.py]; the route table; the module body that starts the
    process; a scripted engine for closed examples; the theorems.

    Left out: CORS, the [uvicorn] entry point, and logging but for the one
    log line whose formatting can raise (line 142: it prints the engine's
    result; the others print a [str] or a [len]). The texts of the builtin
    exceptions are those of CPython 3.11 and later. *)

From Stdlib Require Import ZArith List String Ascii Bool Lia DecimalString.
From Corelib Require Import SpecFloat.
Import ListNotations.
Set Warnings "-register-all".
Local Open Scope string_scope.
Local Open Scope list_scope.

(** ** Python values *)

(** Binary64 numbers, as Python's [float]. The handlers never compute with
    them; they only create them with [float(...)] and pass them on. *)
Definition pyfloat : Type := spec_float.

(** The values that cross the engine boundary. A [dict] is an association
    list in insertion order (the order of iteration); lookup takes the first
    binding of a key. Strings are byte strings. *)
Inductive pyval : Type :=
| PNone
| PBool (b : bool)
| PInt (z : Z)
| PFloat (f : pyfloat)
| PStr (s : string)
| PList (items : list pyval)
| PTuple (items : list pyval)
| PDict (bindings : list (pyval * pyval)).

(** An exception object derived from [Exception]: its class name and the
    text [str(e)] gives. Exits that are not [Exception]s ([SystemExit],
    [KeyboardInterrupt]) are outside the model. *)
Record PyException : Type := mkException
  { exc_class : string;
    exc_str : string }.

(** Computations that may raise: [inl e] is the exception in flight. *)
Definition raising (A : Type) : Type := (PyException + A)%type.

(** The part of the Python runtime that converts between text and values.
    Nothing in the gateway depends on how it does so, hence a parameter:
    [py_repr v] is [repr(v)], which raises on some values (an int of more
    digits than the limit on conversions, a nesting deeper than the
    recursion limit), and [float_of_str s] is [float(s)] for a [str], a
    number or its [ValueError]. *)
Class PyRuntime : Type :=
  { py_repr : pyval -> raising string;
    float_of_str : string -> raising pyfloat }.

Definition rbind {A B : Type} (m : raising A) (f : A -> raising B) : raising B :=
  match m with
  | inl e => inl e
  | inr a => f a
  end.

Declare Scope py_scope.
Delimit Scope py_scope with py.
Notation "x <~ m ; k" := (rbind m (fun x => k))
  (at level 61, m at next level, right associativity) : py_scope.

Module Py.

(** [type(v).__name__] *)
Definition type_name (v : pyval) : string :=
  match v with
  | PNone => "NoneType"
  | PBool _ => "bool"
  | PInt _ => "int"
  | PFloat _ => "float"
  | PStr _ => "str"
  | PList _ => "list"
  | PTuple _ => "tuple"
  | PDict _ => "dict"
  end.

(** [bool(v)], the test of [if v:] *)
Definition truthy (v : pyval) : bool :=
  match v with
  | PNone => false
  | PBool b => b
  | PInt z => negb (Z.eqb z 0)
  | PFloat (S754_zero _) => false
  | PFloat _ => true
  | PStr s => negb (String.eqb s "")
  | PList items => negb (Nat.eqb (List.length items) 0)
  | PTuple items => negb (Nat.eqb (List.length items) 0)
  | PDict bindings => negb (Nat.eqb (List.length bindings) 0)
  end.

(** [isinstance(v, dict)] and [isinstance(v, list)] *)
Definition isinstance_dict (v : pyval) : bool :=
  match v with PDict _ => true | _ => false end.

Definition isinstance_list (v : pyval) : bool :=
  match v with PList _ => true | _ => false end.

(** The first binding of the string key [k]. Only a [str] key is equal
    to a [str]. *)
Fixpoint lookup (k : string) (bindings : list (pyval * pyval)) : option pyval :=
  match bindings with
  | [] => None
  | (PStr k', v) :: rest => if String.eqb k' k then Some v else lookup k rest
  | _ :: rest => lookup k rest
  end.

(** [k in v], for a string [k] and a dict [v] (the handlers test it only
    behind [isinstance(v, dict)]). *)
Definition contains (v : pyval) (k : string) : bool :=
  match v with
  | PDict bindings => match lookup k bindings with Some _ => true | None => false end
  | _ => false
  end.

(** [v[k]] for a string [k]. *)
Definition getitem (v : pyval) (k : string) : raising pyval :=
  match v with
  | PDict bindings =>
      match lookup k bindings with
      | Some x => inr x
      | None => inl (mkException "KeyError" ("'" ++ k ++ "'"))
      end
  | PStr _ =>
      inl (mkException "TypeError" "string indices must be integers, not 'str'")
  | PList _ | PTuple _ =>
      inl (mkException "TypeError"
             (type_name v ++ " indices must be integers or slices, not str"))
  | _ =>
      inl (mkException "TypeError"
             ("'" ++ type_name v ++ "' object is not subscriptable"))
  end.

(** [v.get(k, default)]: of the values here only a dict has a [get]. *)
Definition get (v : pyval) (k : string) (default : pyval) : raising pyval :=
  match v with
  | PDict bindings =>
      inr (match lookup k bindings with Some x => x | None => default end)
  | _ =>
      inl (mkException "AttributeError"
             ("'" ++ type_name v ++ "' object has no attribute 'get'"))
  end.

(** The items a [for] loop over [v] visits: the elements of a list or
    tuple, the keys of a dict, the one-character strings of a string. *)
Definition iter (v : pyval) : raising (list pyval) :=
  match v with
  | PList items => inr items
  | PTuple items => inr items
  | PDict bindings => inr (map fst bindings)
  | PStr s => inr (map (fun c => PStr (String c "")) (list_ascii_of_string s))
  | _ =>
      inl (mkException "TypeError"
             ("'" ++ type_name v ++ "' object is not iterable"))
  end.

(** [float(z)] for an int: the nearest binary64, ties to even;
    [OverflowError] beyond the range. *)
Definition float_of_int (z : Z) : raising pyfloat :=
  match binary_normalize 53 1024 z 0 false with
  | S754_infinity _ =>
      inl (mkException "OverflowError" "int too large to convert to float")
  | f => inr f
  end.

Definition zero : pyfloat := S754_zero false.
Definition one : pyfloat := S754_finite false 4503599627370496 (-52).

Section Conversions.
Context {rt : PyRuntime}.

(** [str(v)], and the [{v}] of an f-string: a string is itself, every
    other value here prints as its [repr], or raises as its [repr] does. *)
Definition str (v : pyval) : raising string :=
  match v with
  | PStr s => inr s
  | _ => py_repr v
  end.

(** [float(v)] *)
Definition float (v : pyval) : raising pyfloat :=
  match v with
  | PFloat f => inr f
  | PInt z => float_of_int z
  | PBool b => inr (if b then one else zero)
  | PStr s => float_of_str s
  | _ =>
      inl (mkException "TypeError"
             ("float() argument must be a string or a real number, not '"
                ++ type_name v ++ "'"))
  end.
End Conversions.

End Py.

(** ** The engine boundary *)

(** The requests of the service, as pydantic hands them to the handlers
    (defaults already filled in). *)
Record Message : Type := mkMessage
  { role : string;
    content : string }.

Module AddMemoryRequest.
Record t : Type := make
  { messages : list Message;
    user_id : string;
    metadata : option (list (pyval * pyval)) }.
End AddMemoryRequest.

Module SearchMemoryRequest.
Record t : Type := make
  { query : string;
    user_id : string;
    limit : Z }.
End SearchMemoryRequest.

(** The default of [user_id], in both request models and both query
    strings. *)
Definition default_user : string := "default_user".

Module Memory.

(** The object [Memory.from_config(config)] returns. The global [memory]
    is [Some] of it, or [None] when the construction raised. An instance
    of a class without [__bool__] or [__len__] is true. *)
Variant t : Type := from_config.

(** The four methods the gateway calls, with their keyword arguments. *)
Variant call : Type :=
| add (messages : pyval) (user_id : string) (metadata : pyval)
| search (query : string) (user_id : string) (limit : Z)
| get_all (user_id : string)
| delete_all (user_id : string).

(** How a call ends. *)
Variant outcome : Type :=
| Returns (v : pyval)
| Raises (e : PyException).

End Memory.

(** [bool(memory)], the test of [if not memory:] *)
Definition initialized (memory : option Memory.t) : bool :=
  match memory with
  | Some _ => true
  | None => false
  end.

(** The global [memory] after a successful start. *)
Definition ready : option Memory.t := Some Memory.from_config.

(** A handler is a tree of engine calls: it returns, or an exception
    escapes it, or it calls the engine and goes on from how the call ends. *)
Inductive Gateway (A : Type) : Type :=
| Ret (a : A)
| Raise (e : PyException)
| Invoke (c : Memory.call) (k : Memory.outcome -> Gateway A).

Arguments Ret {A} a.
Arguments Raise {A} e.
Arguments Invoke {A} c k.

Fixpoint bind {A B : Type} (m : Gateway A) (f : A -> Gateway B) : Gateway B :=
  match m with
  | Ret a => f a
  | Raise e => Raise e
  | Invoke c k => Invoke c (fun o => bind (k o) f)
  end.

Notation "x <- m ;; k" := (bind m (fun x => k))
  (at level 61, m at next level, right associativity) : py_scope.

(** [try: body / except Exception as e: handler(e)] *)
Fixpoint try_except {A : Type} (body : Gateway A) (handler : PyException -> Gateway A)
  : Gateway A :=
  match body with
  | Ret a => Ret a
  | Raise e => handler e
  | Invoke c k => Invoke c (fun o => try_except (k o) handler)
  end.

(** One call of the engine: its value, or its exception in flight. *)
Definition invoke (c : Memory.call) : Gateway pyval :=
  Invoke c (fun o =>
    match o with
    | Memory.Returns v => Ret v
    | Memory.Raises e => Raise e
    end).

(** A computation without engine calls, inside a handler. *)
Definition lift {A : Type} (m : raising A) : Gateway A :=
  match m with
  | inl e => Raise e
  | inr a => Ret a
  end.

(** What the HTTP layer sends back: the JSON body a handler returned
    (status 200), or the [HTTPException] it raised. *)
Variant Response : Type :=
| JSON (body : pyval)
| HTTPException (status_code : Z) (detail : string).

(** Running a handler against an engine: a state of type [S] and the
    effect of each call on it. The result comes with the calls made, in
    order, and the engine's final state. *)
Section Run.
Context {S : Type} (engine : Memory.call -> S -> Memory.outcome * S).

Fixpoint run {A : Type} (m : Gateway A) (s : S)
  : raising A * list Memory.call * S :=
  match m with
  | Ret a => (inr a, [], s)
  | Raise e => (inl e, [], s)
  | Invoke c k =>
      let '(o, s1) := engine c s in
      let '(r, calls, s2) := run (k o) s1 in
      (r, c :: calls, s2)
  end.
End Run.

(** ** The handlers of [main.py] *)

Notation "k :-> v" := (PStr k, v) (at level 60, no associativity) : py_scope.
Local Open Scope py_scope.

(** [raise HTTPException(status_code=503, detail="Mem0 not initialized")] *)
Definition not_initialized : Gateway Response :=
  Ret (HTTPException 503 "Mem0 not initialized").

(** [except Exception as e: raise HTTPException(status_code=500, detail=str(e))] *)
Definition internal_error (e : PyException) : Gateway Response :=
  Ret (HTTPException 500 (exc_str e)).

(** [GET /] *)
Definition root (memory : option Memory.t) : Gateway Response :=
  Ret (JSON (PDict
    [ "service" :-> PStr "ProjectZ Mem0 Service";
      "status" :-> PStr (if initialized memory then "running" else "error");
      "version" :-> PStr "1.0.0" ])).

(** [GET /health] *)
Definition health (memory : option Memory.t) : Gateway Response :=
  if negb (initialized memory) then not_initialized
  else Ret (JSON (PDict [ "status" :-> PStr "healthy" ])).

(** [{"role": msg.role, "content": msg.content}] *)
Definition message_dict (msg : Message) : pyval :=
  PDict [ "role" :-> PStr (role msg); "content" :-> PStr (content msg) ].

(** [request.metadata or {}] *)
Definition metadata_or_empty (metadata : option (list (pyval * pyval))) : pyval :=
  match metadata with
  | Some bindings => if Py.truthy (PDict bindings) then PDict bindings else PDict []
  | None => PDict []
  end.

(** [POST /add]. Line 142 formats the engine's result into a log line,
    inside the [try]: the text is dropped here, its exception is not. *)
Definition add_memory {rt : PyRuntime} (memory : option Memory.t)
    (request : AddMemoryRequest.t) : Gateway Response :=
  if negb (initialized memory) then not_initialized
  else
    try_except
      (let messages_list := map message_dict (AddMemoryRequest.messages request) in
       result <- invoke (Memory.add (PList messages_list)
                           (AddMemoryRequest.user_id request)
                           (metadata_or_empty (AddMemoryRequest.metadata request))) ;;
       _ <- lift (Py.str result) ;;
       Ret (JSON (PDict
         [ "success" :-> PBool true;
           "result" :-> result;
           "message" :-> PStr "Memories extracted and stored" ])))
      internal_error.

(** The choice of [result_list] (lines 176-179 and 217-220). *)
Definition select_result_list (results : pyval) : raising pyval :=
  if Py.isinstance_dict results && Py.contains results "results"
  then Py.getitem results "results"
  else inr (if Py.isinstance_list results then results else PList []).

(** The loop [for result in result_list: memories.append(record(result))],
    entered with the [memories] collected so far. *)
Fixpoint append_each (record : pyval -> raising pyval)
    (result_list memories : list pyval) : raising (list pyval) :=
  match result_list with
  | [] => inr memories
  | result :: rest =>
      m <~ record result ;
      append_each record rest (memories ++ [m])
  end.

(** [memories = []; if results: ...], the same text in [search_memories]
    and [get_all_memories] but for the record built in the loop. *)
Definition collect_memories (record : pyval -> raising pyval) (results : pyval)
  : raising (list pyval) :=
  if Py.truthy results then
    result_list <~ select_result_list results ;
    items <~ Py.iter result_list ;
    append_each record items []
  else inr [].

(** [{"success": True, "count": len(memories), "memories": memories}] *)
Definition memories_body (memories : list pyval) : pyval :=
  PDict
    [ "success" :-> PBool true;
      "count" :-> PInt (Z.of_nat (List.length memories));
      "memories" :-> PList memories ].

Section Handlers.
Context {rt : PyRuntime}.

(** The record of a search result (lines 182-187). *)
Definition search_record (result : pyval) : raising pyval :=
  id_ <~ Py.get result "id" (PStr "") ;
  id_str <~ Py.str id_ ;
  memory_ <~ Py.get result "memory" (PStr "") ;
  memory_str <~ Py.str memory_ ;
  score_ <~ Py.get result "score" (PFloat Py.zero) ;
  score <~ Py.float score_ ;
  metadata_ <~ Py.get result "metadata" (PDict []) ;
  inr (PDict
    [ "id" :-> PStr id_str;
      "memory" :-> PStr memory_str;
      "score" :-> PFloat score;
      "metadata" :-> metadata_ ]).

(** The record of a listed memory (lines 223-227). *)
Definition listed_record (result : pyval) : raising pyval :=
  id_ <~ Py.get result "id" (PStr "") ;
  id_str <~ Py.str id_ ;
  memory_ <~ Py.get result "memory" (PStr "") ;
  memory_str <~ Py.str memory_ ;
  metadata_ <~ Py.get result "metadata" (PDict []) ;
  inr (PDict
    [ "id" :-> PStr id_str;
      "memory" :-> PStr memory_str;
      "metadata" :-> metadata_ ]).

(** [POST /search] *)
Definition search_memories (memory : option Memory.t)
    (request : SearchMemoryRequest.t) : Gateway Response :=
  if negb (initialized memory) then not_initialized
  else
    try_except
      (results <- invoke (Memory.search
                            (SearchMemoryRequest.query request)
                            (SearchMemoryRequest.user_id request)
                            (SearchMemoryRequest.limit request)) ;;
       memories <- lift (collect_memories search_record results) ;;
       Ret (JSON (memories_body memories)))
      internal_error.

(** [GET /all] *)
Definition get_all_memories (memory : option Memory.t) (user_id : string)
  : Gateway Response :=
  if negb (initialized memory) then not_initialized
  else
    try_except
      (results <- invoke (Memory.get_all user_id) ;;
       memories <- lift (collect_memories listed_record results) ;;
       Ret (JSON (memories_body memories)))
      internal_error.
End Handlers.

(** [DELETE /clear] *)
Definition clear_memories (memory : option Memory.t) (user_id : string)
  : Gateway Response :=
  if negb (initialized memory) then not_initialized
  else
    try_except
      (_ <- invoke (Memory.delete_all user_id) ;;
       Ret (JSON (PDict
         [ "success" :-> PBool true;
           "message" :-> PStr "All memories cleared" ])))
      internal_error.

(** The routes of the FastAPI [app]: a request is a route with what
    FastAPI parsed from the body or the query string. *)
Variant Request : Type :=
| GET_root
| GET_health
| POST_add (request : AddMemoryRequest.t)
| POST_search (request : SearchMemoryRequest.t)
| GET_all (user_id : string)
| DELETE_clear (user_id : string).

Definition app {rt : PyRuntime} (memory : option Memory.t) (req : Request)
  : Gateway Response :=
  match req with
  | GET_root => root memory
  | GET_health => health memory
  | POST_add request => add_memory memory request
  | POST_search request => search_memories memory request
  | GET_all user_id => get_all_memories memory user_id
  | DELETE_clear user_id => clear_memories memory user_id
  end.

(** ** Vocabulary of the statements *)

(** The four routes that reach the engine. *)
Definition data_request (req : Request) : bool :=
  match req with
  | GET_root | GET_health => false
  | _ => true
  end.

(** The two routes that answer with memories. *)
Definition listing_request (req : Request) : bool :=
  match req with
  | POST_search _ | GET_all _ => true
  | _ => false
  end.

(** The call [POST /search] makes for a request. *)
Definition search_call (request : SearchMemoryRequest.t) : Memory.call :=
  Memory.search (SearchMemoryRequest.query request)
    (SearchMemoryRequest.user_id request)
    (SearchMemoryRequest.limit request).

(** The two shapes of a reply the gateway reads records from: the bare
    list, and a dict whose ["results"] is the list. *)
Definition carries (results : pyval) (records : list pyval) : Prop :=
  results = PList records \/
  exists bindings,
    results = PDict bindings /\ Py.lookup "results" bindings = Some (PList records).

(** [memories] holds one record per engine record, at the same position,
    each built by [record]. *)
Definition one_per_record (record : pyval -> raising pyval)
    (records memories : list pyval) : Prop :=
  List.length memories = List.length records /\
  forall i r, nth_error records i = Some r ->
    exists m, nth_error memories i = Some m /\ record r = inr m.

(** The record a listing route builds from an engine record. *)
Definition record_of {rt : PyRuntime} (req : Request) : pyval -> raising pyval :=
  match req with
  | GET_all _ => listed_record
  | _ => search_record
  end.

(** The [user_id] keyword of a call, and the [user_id] of a request (the
    two probes have none). *)
Definition call_user_id (c : Memory.call) : string :=
  match c with
  | Memory.add _ user_id _ => user_id
  | Memory.search _ user_id _ => user_id
  | Memory.get_all user_id => user_id
  | Memory.delete_all user_id => user_id
  end.

Definition request_user_id (req : Request) : option string :=
  match req with
  | GET_root | GET_health => None
  | POST_add request => Some (AddMemoryRequest.user_id request)
  | POST_search request => Some (SearchMemoryRequest.user_id request)
  | GET_all user_id => Some user_id
  | DELETE_clear user_id => Some user_id
  end.

(** The calls that change what the engine stores. *)
Definition mutating (c : Memory.call) : bool :=
  match c with
  | Memory.add _ _ _ | Memory.delete_all _ => true
  | Memory.search _ _ _ | Memory.get_all _ => false
  end.

(** ** The start of the process (lines 40-76) *)

(** [os.getenv(name)], on the environment as [load_dotenv()] left it. *)
Fixpoint getenv (environ : list (string * string)) (name : string) : option string :=
  match environ with
  | [] => None
  | (k, v) :: rest => if String.eqb k name then Some v else getenv rest name
  end.

(** 0.1, the nearest binary64. *)
Definition one_tenth : pyfloat := S754_finite false 7205759403792794 (-56).

Definition config : pyval :=
  PDict
    [ "vector_store" :-> PDict
        [ "provider" :-> PStr "qdrant";
          "config" :-> PDict
            [ "collection_name" :-> PStr "clippy_memories";
              "path" :-> PStr "./data/qdrant" ] ];
      "embedder" :-> PDict
        [ "provider" :-> PStr "openai";
          "config" :-> PDict [ "model" :-> PStr "text-embedding-3-small" ] ];
      "llm" :-> PDict
        [ "provider" :-> PStr "openai";
          "config" :-> PDict
            [ "model" :-> PStr "gpt-4o-mini";
              "temperature" :-> PFloat one_tenth;
              "max_tokens" :-> PInt 2000 ] ];
      "version" :-> PStr "v1.1" ].

(** The module body: it raises when the key is missing, and otherwise
    binds the global [memory], to [None] when [Memory.from_config] raises.
    [from_config] is how the engine's constructor ends on a configuration. *)
Definition startup (environ : list (string * string))
    (from_config : pyval -> raising Memory.t) : raising (option Memory.t) :=
  let OPENAI_API_KEY :=
    match getenv environ "OPENAI_API_KEY" with
    | Some key => PStr key
    | None => PNone
    end in
  if negb (Py.truthy OPENAI_API_KEY) then
    inl (mkException "ValueError" "OPENAI_API_KEY not found in environment variables")
  else
    match from_config config with
    | inr engine => inr (Some engine)
    | inl _ => inr None
    end.

(** ** Fixtures for closed examples *)

(** An engine that plays back a script of outcomes, one per call, whatever
    the call. *)
Definition scripted (c : Memory.call) (script : list Memory.outcome)
  : Memory.outcome * list Memory.outcome :=
  match script with
  | [] => (Memory.Raises (mkException "RuntimeError" "script exhausted"), [])
  | o :: rest => (o, rest)
  end.

(** The limit of CPython on the digits of an int it converts to text. *)
Definition int_max_str_digits : Z := 4300.

(** A runtime for the examples. It prints an int as CPython does, the
    limit on its digits included; the examples convert no other text, and
    it stands in for the rest: every other value prints as its type name,
    and no string parses as a float. *)
Definition example_runtime : PyRuntime :=
  {| py_repr := fun v =>
       match v with
       | PInt z =>
           if (Z.abs z <? 10 ^ int_max_str_digits)%Z
           then inr (NilZero.string_of_int (Z.to_int z))
           else inl (mkException "ValueError"
                       "Exceeds the limit (4300 digits) for integer string conversion; use sys.set_int_max_str_digits() to increase the limit")
       | _ => inr ("<" ++ Py.type_name v ++ ">")%string
       end;
     float_of_str := fun s =>
       inl (mkException "ValueError"
              ("could not convert string to float: '" ++ s ++ "'")) |}.

(** 0.9, the nearest binary64. *)
Definition nine_tenths : pyfloat := S754_finite false 8106479329266893 (-53).

(** Two records, for a request with [limit] 1. *)
Definition two_records : list pyval :=
  [ PDict [ "id" :-> PStr "1"; "memory" :-> PStr "likes tea";
            "score" :-> PFloat nine_tenths ];
    PDict [ "id" :-> PStr "2"; "memory" :-> PStr "lives in Oslo";
            "score" :-> PFloat Py.one ] ].

(** ** The loop and the choice of the result list *)

Section Collect.
Variable record : pyval -> raising pyval.

(** The loop keeps what was collected and appends, in order, the record
    of each item. *)
Lemma append_each_inr (items : list pyval) :
  forall memories out,
    append_each record items memories = inr out ->
    exists ms,
      out = memories ++ ms /\
      Forall2 (fun r m => record r = inr m) items ms.
Proof.
  induction items as [|r rest IH]; intros memories out Hrun; simpl in Hrun.
  - injection Hrun as <-. exists []. split; [now rewrite app_nil_r | constructor].
  - destruct (record r) as [e|m] eqn:Hr; simpl in Hrun; [discriminate|].
    destruct (IH _ _ Hrun) as (ms & -> & Hall).
    exists (m :: ms). split.
    + now rewrite <- app_assoc.
    + now constructor.
Qed.

(** The loop stops at the first item whose record raises, and raises the
    same exception. *)
Lemma append_each_inl (items : list pyval) :
  forall memories e,
    append_each record items memories = inl e ->
    exists r, In r items /\ record r = inl e.
Proof.
  induction items as [|r rest IH]; intros memories e Hrun; simpl in Hrun.
  - discriminate.
  - destruct (record r) as [e'|m] eqn:Hr; simpl in Hrun.
    + injection Hrun as ->. exists r. split; [now left | assumption].
    + destruct (IH _ _ Hrun) as (r' & Hin & Hr'). exists r'. split; [now right | assumption].
Qed.

Lemma append_each_all (items ms : list pyval) :
  Forall2 (fun r m => record r = inr m) items ms ->
  forall memories, append_each record items memories = inr (memories ++ ms).
Proof.
  induction 1 as [|r m items ms Hr _ IH]; intros memories; simpl.
  - now rewrite app_nil_r.
  - rewrite Hr. simpl. rewrite IH. now rewrite <- app_assoc.
Qed.

Lemma Forall2_one_per_record (records memories : list pyval) :
  Forall2 (fun r m => record r = inr m) records memories ->
  one_per_record record records memories.
Proof.
  induction 1 as [|r m records memories Hr _ [Hlen Hnth]]; split; simpl.
  - reflexivity.
  - intros [|i] r; discriminate.
  - now rewrite Hlen.
  - intros [|i] r' Hi; simpl in Hi.
    + injection Hi as <-. now exists m.
    + now apply Hnth.
Qed.

(** A bare list is walked as it is, the empty one included. *)
Lemma collect_memories_list (records : list pyval) :
  collect_memories record (PList records) = append_each record records [].
Proof. now destruct records. Qed.

(** A dict with a ["results"] key is read through that key, whatever it
    holds. *)
Lemma collect_memories_results (bindings : list (pyval * pyval)) (v : pyval) :
  Py.lookup "results" bindings = Some v ->
  collect_memories record (PDict bindings) =
  rbind (Py.iter v) (fun items => append_each record items []).
Proof.
  intros Hv. unfold collect_memories, select_result_list. simpl.
  rewrite Hv. destruct bindings as [|b rest]; [discriminate|]. reflexivity.
Qed.

(** Anything else yields no memories. *)
Lemma collect_memories_other (results : pyval) :
  Py.isinstance_dict results && Py.contains results "results" = false ->
  Py.isinstance_list results = false ->
  collect_memories record results = inr [].
Proof.
  intros Hdict Hlist. unfold collect_memories, select_result_list.
  rewrite Hdict, Hlist. simpl. now destruct (Py.truthy results).
Qed.

Lemma collect_memories_carries (results : pyval) (records : list pyval) :
  carries results records ->
  collect_memories record results = append_each record records [].
Proof.
  intros [-> | (bindings & -> & Hv)].
  - apply collect_memories_list.
  - now rewrite (collect_memories_results _ _ Hv).
Qed.
End Collect.

(** ** Running the handlers *)

Section Runs.
Context {rt : PyRuntime} {S : Type}.
Variable engine : Memory.call -> S -> Memory.outcome * S.

(** The text shared by [search_memories] and [get_all_memories]: one
    call, then the records or the exception of whichever step raised. *)
Lemma run_listing (c : Memory.call) (record : pyval -> raising pyval) (s : S) :
  run engine
    (try_except
       (results <- invoke c ;;
        memories <- lift (collect_memories record results) ;;
        Ret (JSON (memories_body memories)))
       internal_error) s =
  ( inr match fst (engine c s) with
        | Memory.Raises e => HTTPException 500 (exc_str e)
        | Memory.Returns results =>
            match collect_memories record results with
            | inl e => HTTPException 500 (exc_str e)
            | inr memories => JSON (memories_body memories)
            end
        end,
    [c], snd (engine c s) ).
Proof.
  simpl. destruct (engine c s) as [[results|e] s1]; simpl; [|reflexivity].
  now destruct (collect_memories record results).
Qed.

Lemma run_search_memories (request : SearchMemoryRequest.t) (s : S) :
  run engine (search_memories ready request) s =
  ( inr match fst (engine (search_call request) s) with
        | Memory.Raises e => HTTPException 500 (exc_str e)
        | Memory.Returns results =>
            match collect_memories search_record results with
            | inl e => HTTPException 500 (exc_str e)
            | inr memories => JSON (memories_body memories)
            end
        end,
    [search_call request], snd (engine (search_call request) s) ).
Proof. apply run_listing. Qed.

Lemma run_get_all_memories (user_id : string) (s : S) :
  run engine (get_all_memories ready user_id) s =
  ( inr match fst (engine (Memory.get_all user_id) s) with
        | Memory.Raises e => HTTPException 500 (exc_str e)
        | Memory.Returns results =>
            match collect_memories listed_record results with
            | inl e => HTTPException 500 (exc_str e)
            | inr memories => JSON (memories_body memories)
            end
        end,
    [Memory.get_all user_id], snd (engine (Memory.get_all user_id) s) ).
Proof. apply run_listing. Qed.

Lemma run_add_memory (request : AddMemoryRequest.t) (s : S) :
  let c := Memory.add (PList (map message_dict (AddMemoryRequest.messages request)))
             (AddMemoryRequest.user_id request)
             (metadata_or_empty (AddMemoryRequest.metadata request)) in
  run engine (add_memory ready request) s =
  ( inr match fst (engine c s) with
        | Memory.Raises e => HTTPException 500 (exc_str e)
        | Memory.Returns result =>
            match Py.str result with
            | inl e => HTTPException 500 (exc_str e)
            | inr _ =>
                JSON (PDict [ "success" :-> PBool true;
                              "result" :-> result;
                              "message" :-> PStr "Memories extracted and stored" ])
            end
        end,
    [c], snd (engine c s) ).
Proof.
  simpl. destruct (engine _ s) as [[result|e] s1]; simpl; [|reflexivity].
  now destruct (Py.str result).
Qed.

Lemma run_clear_memories (user_id : string) (s : S) :
  run engine (clear_memories ready user_id) s =
  ( inr match fst (engine (Memory.delete_all user_id) s) with
        | Memory.Raises e => HTTPException 500 (exc_str e)
        | Memory.Returns _ =>
            JSON (PDict [ "success" :-> PBool true;
                          "message" :-> PStr "All memories cleared" ])
        end,
    [Memory.delete_all user_id], snd (engine (Memory.delete_all user_id) s) ).
Proof.
  simpl. now destruct (engine _ s) as [[result|e] s1].
Qed.

(** No exception escapes a handler: the HTTP layer always gets a
    [Response]. *)
Lemma app_never_raises (memory : option Memory.t) (req : Request) (s : S) :
  exists response, fst (fst (run engine (app memory req) s)) = inr response.
Proof.
  destruct memory as [[]|]; destruct req; simpl app;
    try (eexists; reflexivity).
  - fold ready. rewrite run_add_memory. eexists; reflexivity.
  - fold ready. rewrite run_search_memories. eexists; reflexivity.
  - fold ready. rewrite run_get_all_memories. eexists; reflexivity.
  - fold ready. rewrite run_clear_memories. eexists; reflexivity.
Qed.
End Runs.

(** ** The properties of the specification *)

(** C1. While the engine is unavailable ([memory] is [None]), every route
    but the liveness check [/] answers 503 "Mem0 not initialized": the
    handler is that answer alone, so run against any engine in any state it
    makes no call and leaves the state as it was. *)
Theorem unavailable_engine_503 {rt : PyRuntime} {S : Type}
    (engine : Memory.call -> S -> Memory.outcome * S) (s : S) (req : Request) :
  req <> GET_root ->
  app None req = Ret (HTTPException 503 "Mem0 not initialized") /\
  run engine (app None req) s =
    (inr (HTTPException 503 "Mem0 not initialized"), [], s).
Proof.
  intros Hreq. destruct req; try (split; reflexivity). now contradiction Hreq.
Qed.

Lemma unavailable_engine_503_witness :
  POST_search (SearchMemoryRequest.make "drink preference" "alice" 5) <> GET_root /\
  run scripted
    (app (rt := example_runtime) None
       (POST_search (SearchMemoryRequest.make "drink preference" "alice" 5)))
    [Memory.Returns (PList [])] =
  (inr (HTTPException 503 "Mem0 not initialized"), [], [Memory.Returns (PList [])]).
Proof.
  split; [discriminate|].
  apply (unavailable_engine_503 (rt := example_runtime) scripted). discriminate.
Defined.

(** The liveness check is the exception: it answers with a body, status
    "error", and calls nothing either. *)
Lemma root_unavailable {rt : PyRuntime} :
  app None GET_root =
  Ret (JSON (PDict [ "service" :-> PStr "ProjectZ Mem0 Service";
                     "status" :-> PStr "error";
                     "version" :-> PStr "1.0.0" ])).
Proof. reflexivity. Qed.

(** C2. For every list of records, search and listing collect the same
    memories (or raise the same exception) from the dict
    [{"results": records}] as from the bare list [records]. *)
Theorem both_shapes_same_memories {rt : PyRuntime} (records : list pyval) :
  collect_memories search_record (PDict [ "results" :-> PList records ]) =
  collect_memories search_record (PList records) /\
  collect_memories listed_record (PDict [ "results" :-> PList records ]) =
  collect_memories listed_record (PList records).
Proof.
  split; rewrite collect_memories_list;
    now rewrite (collect_memories_results _ [ "results" :-> PList records ]
                   (PList records) eq_refl).
Qed.

(** The same holds of the whole response, and of any dict that binds
    ["results"] to the list, whatever else it binds. *)
Lemma both_shapes_same_response {rt : PyRuntime} {S : Type}
    (engine : Memory.call -> S -> Memory.outcome * S)
    (s1 s2 : S) (results1 results2 : pyval) (records : list pyval)
    (request : SearchMemoryRequest.t) :
  carries results1 records ->
  carries results2 records ->
  fst (engine (search_call request) s1) = Memory.Returns results1 ->
  fst (engine (search_call request) s2) = Memory.Returns results2 ->
  fst (fst (run engine (search_memories ready request) s1)) =
  fst (fst (run engine (search_memories ready request) s2)).
Proof.
  intros H1 H2 E1 E2. rewrite !run_search_memories. simpl. rewrite E1, E2.
  now rewrite (collect_memories_carries _ _ _ H1), (collect_memories_carries _ _ _ H2).
Qed.

(** What a record that was built was built from. *)
Lemma search_record_inr {rt : PyRuntime} (r m : pyval) :
  search_record r = inr m ->
  exists fields id_ memory_ score,
    r = PDict fields /\
    Py.str match Py.lookup "id" fields with
           | Some v => v | None => PStr "" end = inr id_ /\
    Py.str match Py.lookup "memory" fields with
           | Some v => v | None => PStr "" end = inr memory_ /\
    Py.float match Py.lookup "score" fields with
             | Some v => v | None => PFloat Py.zero end = inr score /\
    m = PDict
          [ "id" :-> PStr id_; "memory" :-> PStr memory_;
            "score" :-> PFloat score;
            "metadata" :-> match Py.lookup "metadata" fields with
                           | Some v => v | None => PDict [] end ].
Proof.
  destruct r as [| | | | | | |fields]; try discriminate.
  unfold search_record. simpl.
  destruct (Py.str match Py.lookup "id" fields with
                   | Some v => v | None => PStr "" end) as [e|id_] eqn:Hid;
    simpl; [discriminate|].
  destruct (Py.str match Py.lookup "memory" fields with
                   | Some v => v | None => PStr "" end) as [e|memory_] eqn:Hmemory;
    simpl; [discriminate|].
  destruct (Py.float match Py.lookup "score" fields with
                     | Some v => v | None => PFloat Py.zero end) as [e|score] eqn:Hscore;
    simpl; [discriminate|].
  intros Hm. injection Hm as <-. now exists fields, id_, memory_, score.
Qed.

Lemma listed_record_inr {rt : PyRuntime} (r m : pyval) :
  listed_record r = inr m ->
  exists fields id_ memory_,
    r = PDict fields /\
    Py.str match Py.lookup "id" fields with
           | Some v => v | None => PStr "" end = inr id_ /\
    Py.str match Py.lookup "memory" fields with
           | Some v => v | None => PStr "" end = inr memory_ /\
    m = PDict
          [ "id" :-> PStr id_; "memory" :-> PStr memory_;
            "metadata" :-> match Py.lookup "metadata" fields with
                           | Some v => v | None => PDict [] end ].
Proof.
  destruct r as [| | | | | | |fields]; try discriminate.
  unfold listed_record. simpl.
  destruct (Py.str match Py.lookup "id" fields with
                   | Some v => v | None => PStr "" end) as [e|id_] eqn:Hid;
    simpl; [discriminate|].
  destruct (Py.str match Py.lookup "memory" fields with
                   | Some v => v | None => PStr "" end) as [e|memory_] eqn:Hmemory;
    simpl; [discriminate|].
  intros Hm. injection Hm as <-. now exists fields, id_, memory_.
Qed.

(** C3, as the code has it. The record built from a search result that is a
    dict has four fields: [id] and [memory] are [str] of the result's (the
    empty string when absent), [score] is [float] of the result's (0.0
    when absent), and [metadata] is the result's own value, unchanged and of
    whatever type (the empty dict when absent). *)
Theorem search_record_fields {rt : PyRuntime}
    (fields : list (pyval * pyval)) (m : pyval) :
  search_record (PDict fields) = inr m ->
  exists (id_ memory_ : string) (score : pyfloat) (metadata_ : pyval),
    m = PDict [ "id" :-> PStr id_; "memory" :-> PStr memory_;
                "score" :-> PFloat score; "metadata" :-> metadata_ ] /\
    match Py.lookup "id" fields with
    | Some v => Py.str v = inr id_
    | None => id_ = ""
    end /\
    match Py.lookup "memory" fields with
    | Some v => Py.str v = inr memory_
    | None => memory_ = ""
    end /\
    match Py.lookup "score" fields with
    | Some v => Py.float v = inr score
    | None => score = Py.zero
    end /\
    metadata_ = match Py.lookup "metadata" fields with Some v => v | None => PDict [] end.
Proof.
  intros Hm.
  apply search_record_inr in Hm
    as (fields' & id_ & memory_ & score & [= <-] & Hid & Hmemory & Hscore & ->).
  eexists id_, memory_, score, _. split; [reflexivity|].
  repeat split.
  - destruct (Py.lookup "id" fields); [assumption|].
    simpl in Hid. now injection Hid as <-.
  - destruct (Py.lookup "memory" fields); [assumption|].
    simpl in Hmemory. now injection Hmemory as <-.
  - destruct (Py.lookup "score" fields); [assumption|].
    simpl in Hscore. now injection Hscore as <-.
Qed.

Lemma search_record_fields_witness :
  search_record (rt := example_runtime)
    (PDict [ "id" :-> PStr "1"; "memory" :-> PStr "likes tea";
             "score" :-> PFloat nine_tenths ]) =
  inr (PDict [ "id" :-> PStr "1"; "memory" :-> PStr "likes tea";
               "score" :-> PFloat nine_tenths; "metadata" :-> PDict [] ]) /\
  exists (id_ memory_ : string) (score : pyfloat) (metadata_ : pyval),
    PDict [ "id" :-> PStr "1"; "memory" :-> PStr "likes tea";
            "score" :-> PFloat nine_tenths; "metadata" :-> PDict [] ] =
    PDict [ "id" :-> PStr id_; "memory" :-> PStr memory_;
            "score" :-> PFloat score; "metadata" :-> metadata_ ] /\
    Py.str (rt := example_runtime) (PStr "1") = inr id_ /\
    Py.str (rt := example_runtime) (PStr "likes tea") = inr memory_ /\
    Py.float (rt := example_runtime) (PFloat nine_tenths) = inr score /\
    metadata_ = PDict [].
Proof.
  split; [reflexivity|].
  exact (search_record_fields (rt := example_runtime)
           [ "id" :-> PStr "1"; "memory" :-> PStr "likes tea";
             "score" :-> PFloat nine_tenths ]
           _ eq_refl).
Defined.

(** C3 as the specification words it fails on [metadata]: a result whose
    [metadata] is [None] keeps [None], which is no mapping. *)
Lemma search_record_keeps_None_metadata :
  search_record (rt := example_runtime)
    (PDict [ "id" :-> PStr "1"; "memory" :-> PStr "likes tea";
             "score" :-> PFloat nine_tenths; "metadata" :-> PNone ]) =
  inr (PDict [ "id" :-> PStr "1"; "memory" :-> PStr "likes tea";
               "score" :-> PFloat nine_tenths; "metadata" :-> PNone ]) /\
  Py.isinstance_dict PNone = false.
Proof. split; reflexivity. Qed.

(** When the fields are absent nothing can raise. *)
Lemma search_record_defaults {rt : PyRuntime} (fields : list (pyval * pyval)) :
  Py.lookup "id" fields = None ->
  Py.lookup "memory" fields = None ->
  Py.lookup "score" fields = None ->
  Py.lookup "metadata" fields = None ->
  search_record (PDict fields) =
  inr (PDict [ "id" :-> PStr ""; "memory" :-> PStr "";
               "score" :-> PFloat Py.zero; "metadata" :-> PDict [] ]).
Proof.
  intros Hid Hmemory Hscore Hmetadata. unfold search_record. simpl.
  now rewrite Hid, Hmemory, Hscore, Hmetadata.
Qed.

(** A result that is not a dict has no [get]: the record raises. *)
Lemma search_record_not_dict {rt : PyRuntime} (result : pyval) :
  Py.isinstance_dict result = false ->
  search_record result =
  inl (mkException "AttributeError"
         ("'" ++ Py.type_name result ++ "' object has no attribute 'get'")).
Proof. now destruct result. Qed.

(** [request.metadata or {}] is the request's metadata, and the empty dict
    when there is none: an empty dict is replaced by an empty dict. *)
Lemma metadata_or_empty_spec (metadata : option (list (pyval * pyval))) :
  metadata_or_empty metadata =
  PDict match metadata with Some bindings => bindings | None => [] end.
Proof. now destruct metadata as [[|b rest]|]. Qed.

(** C4. Whatever the engine does, [POST /add] calls its [add] once, with
    one [{"role", "content"}] dict per message of the request at the same
    position, the request's [user_id], and the request's metadata, the empty
    dict when the request has none. *)
Theorem add_memory_forwards_request {rt : PyRuntime} {S : Type}
    (engine : Memory.call -> S -> Memory.outcome * S) (s : S)
    (request : AddMemoryRequest.t) :
  exists messages_list : list pyval,
    snd (fst (run engine (add_memory ready request) s)) =
      [ Memory.add (PList messages_list) (AddMemoryRequest.user_id request)
          (PDict match AddMemoryRequest.metadata request with
                 | Some bindings => bindings
                 | None => []
                 end) ] /\
    List.length messages_list = List.length (AddMemoryRequest.messages request) /\
    forall i msg,
      nth_error (AddMemoryRequest.messages request) i = Some msg ->
      nth_error messages_list i =
      Some (PDict [ "role" :-> PStr (role msg); "content" :-> PStr (content msg) ]).
Proof.
  exists (map message_dict (AddMemoryRequest.messages request)).
  rewrite run_add_memory. simpl. rewrite metadata_or_empty_spec.
  split; [reflexivity|]. split.
  - apply length_map.
  - intros i msg Hi. now rewrite nth_error_map, Hi.
Qed.




(** C6. A reply to search or listing that is neither a dict with a
    ["results"] key nor a list counts as no records: the response is the
    success body with count 0 and no memories. *)
Theorem unrecognized_reply_is_empty {rt : PyRuntime} {S : Type}
    (engine : Memory.call -> S -> Memory.outcome * S) (s s' : S)
    (results : pyval) :
  Py.isinstance_dict results && Py.contains results "results" = false ->
  Py.isinstance_list results = false ->
  (forall request,
      engine (search_call request) s = (Memory.Returns results, s') ->
      run engine (search_memories ready request) s =
      (inr (JSON (PDict [ "success" :-> PBool true; "count" :-> PInt 0;
                          "memories" :-> PList [] ])),
       [search_call request], s')) /\
  (forall user_id,
      engine (Memory.get_all user_id) s = (Memory.Returns results, s') ->
      run engine (get_all_memories ready user_id) s =
      (inr (JSON (PDict [ "success" :-> PBool true; "count" :-> PInt 0;
                          "memories" :-> PList [] ])),
       [Memory.get_all user_id], s')).
Proof.
  intros Hdict Hlist. split.
  - intros request Hreply. rewrite run_search_memories, Hreply. simpl.
    now rewrite (collect_memories_other _ _ Hdict Hlist).
  - intros user_id Hreply. rewrite run_get_all_memories, Hreply. simpl.
    now rewrite (collect_memories_other _ _ Hdict Hlist).
Qed.

Lemma unrecognized_reply_is_empty_witness :
  Py.isinstance_dict (PStr "no memories") && Py.contains (PStr "no memories") "results" = false /\
  Py.isinstance_list (PStr "no memories") = false /\
  run scripted
    (search_memories (rt := example_runtime) ready
       (SearchMemoryRequest.make "drink preference" "alice" 5))
    [Memory.Returns (PStr "no memories")] =
  (inr (JSON (PDict [ "success" :-> PBool true; "count" :-> PInt 0;
                      "memories" :-> PList [] ])),
   [Memory.search "drink preference" "alice" 5], []) /\
  run scripted (get_all_memories (rt := example_runtime) ready "alice")
    [Memory.Returns (PStr "no memories")] =
  (inr (JSON (PDict [ "success" :-> PBool true; "count" :-> PInt 0;
                      "memories" :-> PList [] ])),
   [Memory.get_all "alice"], []).
Proof.
  split; [reflexivity|]. split; [reflexivity|].
  pose proof (unrecognized_reply_is_empty (rt := example_runtime) scripted
                [Memory.Returns (PStr "no memories")] [] (PStr "no memories")
                eq_refl eq_refl) as [Hsearch Hall].
  split.
  - exact (Hsearch (SearchMemoryRequest.make "drink preference" "alice" 5) eq_refl).
  - exact (Hall "alice" eq_refl).
Defined.

(** A dict without the key, and a tuple, are such replies; a dict whose
    ["results"] is [None] is not, and fails the request. *)
Example dict_without_results_is_empty :
  collect_memories (search_record (rt := example_runtime))
    (PDict [ "memories" :-> PList [ PDict [ "id" :-> PStr "1" ] ] ]) = inr [].
Proof. reflexivity. Qed.

Example tuple_is_empty :
  collect_memories (search_record (rt := example_runtime))
    (PTuple [ PDict [ "id" :-> PStr "1" ] ]) = inr [].
Proof. reflexivity. Qed.

Example results_None_raises :
  collect_memories (search_record (rt := example_runtime))
    (PDict [ "results" :-> PNone ]) =
  inl (mkException "TypeError" "'NoneType' object is not iterable").
Proof. reflexivity. Qed.

(** What holds of every record built holds of every memory collected. *)
Lemma collect_memories_Forall (record : pyval -> raising pyval)
    (P : pyval -> Prop) (results : pyval) (memories : list pyval) :
  (forall r m, record r = inr m -> P m) ->
  collect_memories record results = inr memories ->
  Forall P memories.
Proof.
  intros HP. unfold collect_memories.
  destruct (Py.truthy results).
  - destruct (select_result_list results) as [e|result_list]; simpl; [discriminate|].
    destruct (Py.iter result_list) as [e|items]; simpl; [discriminate|].
    intros Hloop. apply append_each_inr in Hloop as (ms & -> & Hall). simpl.
    induction Hall as [|r m items ms Hr _ IH]; constructor; eauto.
  - intros Hnil. injection Hnil as <-. constructor.
Qed.

Lemma listed_record_no_score {rt : PyRuntime} (r m : pyval) :
  listed_record r = inr m -> Py.contains m "score" = false.
Proof.
  intros Hm.
  now apply listed_record_inr in Hm as (fields & id_ & memory_ & _ & _ & _ & ->).
Qed.

Lemma search_record_has_score {rt : PyRuntime} (r m : pyval) :
  search_record r = inr m -> Py.contains m "score" = true.
Proof.
  intros Hm.
  now apply search_record_inr in Hm
    as (fields & id_ & memory_ & score & _ & _ & _ & _ & ->).
Qed.

(** C7. Whatever the engine replied, no record in the memories of a
    successful [GET /all] has a ["score"] key. *)
Theorem listed_records_have_no_score {rt : PyRuntime} {S : Type}
    (engine : Memory.call -> S -> Memory.outcome * S) (s s' : S)
    (user_id : string) (body : pyval) (calls : list Memory.call) :
  run engine (get_all_memories ready user_id) s = (inr (JSON body), calls, s') ->
  exists memories : list pyval,
    body = PDict [ "success" :-> PBool true;
                   "count" :-> PInt (Z.of_nat (List.length memories));
                   "memories" :-> PList memories ] /\
    Forall (fun m => Py.contains m "score" = false) memories.
Proof.
  rewrite run_get_all_memories. intros Hrun. injection Hrun as Hbody _ _.
  destruct (fst (engine _ s)) as [results|e]; [|discriminate].
  destruct (collect_memories listed_record results) as [e|memories] eqn:Hcollect;
    [discriminate|].
  injection Hbody as <-. exists memories. split; [reflexivity|].
  eapply collect_memories_Forall; [|exact Hcollect].
  apply listed_record_no_score.
Qed.

Lemma listed_records_have_no_score_witness :
  run scripted (get_all_memories (rt := example_runtime) ready "alice")
    [Memory.Returns
       (PDict [ "results" :-> PList
                  [ PDict [ "id" :-> PStr "1"; "memory" :-> PStr "likes tea";
                            "score" :-> PFloat nine_tenths ] ] ])] =
  (inr (JSON (PDict [ "success" :-> PBool true; "count" :-> PInt 1;
                      "memories" :-> PList
                        [ PDict [ "id" :-> PStr "1"; "memory" :-> PStr "likes tea";
                                  "metadata" :-> PDict [] ] ] ])),
   [Memory.get_all "alice"], []) /\
  exists memories : list pyval,
    PDict [ "success" :-> PBool true; "count" :-> PInt 1;
            "memories" :-> PList
              [ PDict [ "id" :-> PStr "1"; "memory" :-> PStr "likes tea";
                        "metadata" :-> PDict [] ] ] ] =
    PDict [ "success" :-> PBool true;
            "count" :-> PInt (Z.of_nat (List.length memories));
            "memories" :-> PList memories ] /\
    Forall (fun m => Py.contains m "score" = false) memories.
Proof.
  split; [reflexivity|].
  exact (listed_records_have_no_score (rt := example_runtime) scripted
           [Memory.Returns
              (PDict [ "results" :-> PList
                         [ PDict [ "id" :-> PStr "1"; "memory" :-> PStr "likes tea";
                                   "score" :-> PFloat nine_tenths ] ] ])]
           [] "alice" _ _ eq_refl).
Defined.

(** The records of a search all have the key. *)
Lemma searched_records_have_score {rt : PyRuntime}
    (results : pyval) (memories : list pyval) :
  collect_memories search_record results = inr memories ->
  Forall (fun m => Py.contains m "score" = true) memories.
Proof.
  apply collect_memories_Forall. apply search_record_has_score.
Qed.

(** C8. When the engine's [delete_all] returns, whatever it returns and
    whatever its state before and after, [DELETE /clear] has called it once,
    with the [user_id] of the request, and answers with the fixed body. *)
Theorem clear_memories_success {S : Type}
    (engine : Memory.call -> S -> Memory.outcome * S) (s s' : S)
    (user_id : string) (v : pyval) :
  engine (Memory.delete_all user_id) s = (Memory.Returns v, s') ->
  run engine (clear_memories ready user_id) s =
  (inr (JSON (PDict [ "success" :-> PBool true;
                      "message" :-> PStr "All memories cleared" ])),
   [Memory.delete_all user_id], s').
Proof.
  intros Hreply. now rewrite run_clear_memories, Hreply.
Qed.

Lemma clear_memories_success_witness :
  scripted (Memory.delete_all "alice") [Memory.Returns PNone] =
  (Memory.Returns PNone, []) /\
  run scripted (clear_memories ready "alice") [Memory.Returns PNone] =
  (inr (JSON (PDict [ "success" :-> PBool true;
                      "message" :-> PStr "All memories cleared" ])),
   [Memory.delete_all "alice"], []).
Proof.
  split; [reflexivity|].
  exact (clear_memories_success scripted [Memory.Returns PNone] [] "alice" PNone eq_refl).
Defined.

(** C9. In every success response of [POST /search] and [GET /all] the
    count is the length of the memories beside it. *)
Theorem count_is_length_of_memories {rt : PyRuntime} {S : Type}
    (engine : Memory.call -> S -> Memory.outcome * S) (s s' : S)
    (req : Request) (body : pyval) (calls : list Memory.call) :
  listing_request req = true ->
  run engine (app ready req) s = (inr (JSON body), calls, s') ->
  exists memories : list pyval,
    body = PDict [ "success" :-> PBool true;
                   "count" :-> PInt (Z.of_nat (List.length memories));
                   "memories" :-> PList memories ].
Proof.
  intros Hreq Hrun.
  destruct req as [| |request|request|user_id|user_id]; try discriminate Hreq;
    simpl app in Hrun.
  - rewrite run_search_memories in Hrun. injection Hrun as Hbody _ _.
    destruct (fst (engine _ s)) as [results|e]; [|discriminate].
    destruct (collect_memories search_record results) as [e|memories]; [discriminate|].
    injection Hbody as <-. now exists memories.
  - rewrite run_get_all_memories in Hrun. injection Hrun as Hbody _ _.
    destruct (fst (engine _ s)) as [results|e]; [|discriminate].
    destruct (collect_memories listed_record results) as [e|memories]; [discriminate|].
    injection Hbody as <-. now exists memories.
Qed.

Lemma count_is_length_of_memories_witness :
  listing_request (POST_search (SearchMemoryRequest.make "drink preference" "alice" 5)) = true /\
  exists memories : list pyval,
    PDict [ "success" :-> PBool true; "count" :-> PInt 1;
            "memories" :-> PList
              [ PDict [ "id" :-> PStr "1"; "memory" :-> PStr "likes tea";
                        "score" :-> PFloat nine_tenths; "metadata" :-> PDict [] ] ] ] =
    PDict [ "success" :-> PBool true;
            "count" :-> PInt (Z.of_nat (List.length memories));
            "memories" :-> PList memories ].
Proof.
  split; [reflexivity|].
  exact (count_is_length_of_memories (rt := example_runtime) scripted
           [Memory.Returns
              (PDict [ "results" :-> PList
                         [ PDict [ "id" :-> PStr "1"; "memory" :-> PStr "likes tea";
                                   "score" :-> PFloat nine_tenths ] ] ])]
           [] (POST_search (SearchMemoryRequest.make "drink preference" "alice" 5))
           _ [Memory.search "drink preference" "alice" 5] eq_refl eq_refl).
Defined.

(** From a reply in one of the two shapes the loop sees exactly the
    engine's records: it collects one memory per record, in order, or, when
    the record of one of them raises, nothing at all. *)
Lemma collect_memories_records (record : pyval -> raising pyval)
    (results : pyval) (records : list pyval) :
  carries results records ->
  (exists memories,
      collect_memories record results = inr memories /\
      one_per_record record records memories) \/
  (exists r e,
      In r records /\ record r = inl e /\
      collect_memories record results = inl e).
Proof.
  intros Hshape. rewrite (collect_memories_carries _ _ _ Hshape).
  destruct (append_each record records []) as [e|memories] eqn:Hloop.
  - right. apply append_each_inl in Hloop as (r & Hin & Hr). now exists r, e.
  - left. apply append_each_inr in Hloop as (ms & -> & Hall).
    exists ms. split; [reflexivity|]. now apply Forall2_one_per_record.
Qed.

(** C10. When the engine's reply is a list of records, bare or under
    ["results"], the memories of a successful search or listing are one per
    engine record, at the same position, each the record built from it:
    nothing is cut (the [limit] of the request plays no part), moved or
    dropped. The only other response is 500, when building the record of
    one of them raises. *)
Theorem memories_one_per_record {rt : PyRuntime} {S : Type}
    (engine : Memory.call -> S -> Memory.outcome * S) (s s' : S)
    (results : pyval) (records : list pyval) :
  carries results records ->
  (forall request,
      engine (search_call request) s = (Memory.Returns results, s') ->
      exists response,
        run engine (search_memories ready request) s =
          (inr response, [search_call request], s') /\
        ((exists memories,
             response = JSON (PDict [ "success" :-> PBool true;
                                      "count" :-> PInt (Z.of_nat (List.length memories));
                                      "memories" :-> PList memories ]) /\
             one_per_record search_record records memories) \/
         (exists r e,
             In r records /\ search_record r = inl e /\
             response = HTTPException 500 (exc_str e)))) /\
  (forall user_id,
      engine (Memory.get_all user_id) s = (Memory.Returns results, s') ->
      exists response,
        run engine (get_all_memories ready user_id) s =
          (inr response, [Memory.get_all user_id], s') /\
        ((exists memories,
             response = JSON (PDict [ "success" :-> PBool true;
                                      "count" :-> PInt (Z.of_nat (List.length memories));
                                      "memories" :-> PList memories ]) /\
             one_per_record listed_record records memories) \/
         (exists r e,
             In r records /\ listed_record r = inl e /\
             response = HTTPException 500 (exc_str e)))).
Proof.
  intros Hshape. split.
  - intros request Hreply. rewrite run_search_memories, Hreply. simpl.
    eexists. split; [reflexivity|].
    destruct (collect_memories_records search_record _ _ Hshape)
      as [(memories & -> & Hone) | (r & e & Hin & Hr & ->)].
    + left. now exists memories.
    + right. now exists r, e.
  - intros user_id Hreply. rewrite run_get_all_memories, Hreply. simpl.
    eexists. split; [reflexivity|].
    destruct (collect_memories_records listed_record _ _ Hshape)
      as [(memories & -> & Hone) | (r & e & Hin & Hr & ->)].
    + left. now exists memories.
    + right. now exists r, e.
Qed.

Lemma memories_one_per_record_witness :
  carries (PList two_records) two_records /\
  exists response,
    run scripted
      (search_memories (rt := example_runtime) ready
         (SearchMemoryRequest.make "drink preference" "alice" 1))
      [Memory.Returns (PList two_records)] =
    (inr response, [Memory.search "drink preference" "alice" 1], []) /\
    ((exists memories,
         response = JSON (PDict [ "success" :-> PBool true;
                                  "count" :-> PInt (Z.of_nat (List.length memories));
                                  "memories" :-> PList memories ]) /\
         one_per_record (search_record (rt := example_runtime)) two_records memories) \/
     (exists r e,
         In r two_records /\ search_record (rt := example_runtime) r = inl e /\
         response = HTTPException 500 (exc_str e))).
Proof.
  split; [now left|].
  exact (proj1 (memories_one_per_record (rt := example_runtime) scripted
                  [Memory.Returns (PList two_records)] []
                  (PList two_records) two_records (or_introl eq_refl))
           (SearchMemoryRequest.make "drink preference" "alice" 1) eq_refl).
Defined.

(** The same run, evaluated: both records come back although the request
    asked for one. *)
Example limit_is_not_enforced :
  run scripted
    (search_memories (rt := example_runtime) ready
       (SearchMemoryRequest.make "drink preference" "alice" 1))
    [Memory.Returns (PList two_records)] =
  (inr (JSON (PDict
     [ "success" :-> PBool true; "count" :-> PInt 2;
       "memories" :-> PList
         [ PDict [ "id" :-> PStr "1"; "memory" :-> PStr "likes tea";
                   "score" :-> PFloat nine_tenths; "metadata" :-> PDict [] ];
           PDict [ "id" :-> PStr "2"; "memory" :-> PStr "lives in Oslo";
                   "score" :-> PFloat Py.one; "metadata" :-> PDict [] ] ] ])),
   [Memory.search "drink preference" "alice" 1], []).
Proof. reflexivity. Qed.

(** ** The scenarios of the specification *)

Example scenario_add :
  run scripted
    (add_memory (rt := example_runtime) ready
       (AddMemoryRequest.make [ mkMessage "user" "I like tea" ] "alice" None))
    [Memory.Returns (PDict [ "results" :-> PList [] ])] =
  (inr (JSON (PDict [ "success" :-> PBool true;
                      "result" :-> PDict [ "results" :-> PList [] ];
                      "message" :-> PStr "Memories extracted and stored" ])),
   [Memory.add
      (PList [ PDict [ "role" :-> PStr "user"; "content" :-> PStr "I like tea" ] ])
      "alice" (PDict [])],
   []).
Proof. reflexivity. Qed.

Example scenario_search :
  run scripted
    (search_memories (rt := example_runtime) ready
       (SearchMemoryRequest.make "drink preference" "alice" 5))
    [Memory.Returns
       (PDict [ "results" :-> PList
                  [ PDict [ "id" :-> PStr "1"; "memory" :-> PStr "likes tea";
                            "score" :-> PFloat nine_tenths ] ] ])] =
  (inr (JSON (PDict
     [ "success" :-> PBool true; "count" :-> PInt 1;
       "memories" :-> PList
         [ PDict [ "id" :-> PStr "1"; "memory" :-> PStr "likes tea";
                   "score" :-> PFloat nine_tenths; "metadata" :-> PDict [] ] ] ])),
   [Memory.search "drink preference" "alice" 5], []).
Proof. reflexivity. Qed.

Example float_of_int_one : Py.float_of_int 1 = inr Py.one.
Proof. reflexivity. Qed.

Example float_of_int_ties_to_even :
  Py.float_of_int (2 ^ 53 + 1) = Py.float_of_int (2 ^ 53).
Proof. vm_compute. reflexivity. Qed.

Example float_of_int_huge :
  Py.float_of_int (2 ^ 1024) =
  inl (mkException "OverflowError" "int too large to convert to float").
Proof. vm_compute. reflexivity. Qed.

(** ** Beyond the specification: the routes as a whole *)

Section Routes.
Context {rt : PyRuntime} {S : Type}.
Variable engine : Memory.call -> S -> Memory.outcome * S.

(** A listing route makes one call and answers from how it ends. *)
Lemma run_app_listing (req : Request) (s : S) :
  listing_request req = true ->
  exists c : Memory.call,
    run engine (app ready req) s =
    ( inr match fst (engine c s) with
          | Memory.Raises e => HTTPException 500 (exc_str e)
          | Memory.Returns results =>
              match collect_memories (record_of req) results with
              | inl e => HTTPException 500 (exc_str e)
              | inr memories => JSON (memories_body memories)
              end
          end,
      [c], snd (engine c s) ).
Proof.
  destruct req as [| |request|request|user_id|user_id]; try discriminate; intros _.
  - exists (search_call request). apply run_search_memories.
  - exists (Memory.get_all user_id). apply run_get_all_memories.
Qed.

(** The same, read from a run: when the call that was made returned
    [results], the response is the one collected from [results]. *)
Lemma listing_response (req : Request) (s s' : S)
    (r : raising Response) (calls : list Memory.call) (results : pyval) :
  listing_request req = true ->
  run engine (app ready req) s = (r, calls, s') ->
  (forall c, In c calls -> fst (engine c s) = Memory.Returns results) ->
  r = inr match collect_memories (record_of req) results with
          | inl e => HTTPException 500 (exc_str e)
          | inr memories => JSON (memories_body memories)
          end.
Proof.
  intros Hreq Hrun Hreply.
  destruct (run_app_listing req s Hreq) as (c & Hc). rewrite Hc in Hrun.
  injection Hrun as <- <- <-. now rewrite (Hreply c (or_introl eq_refl)).
Qed.

(** What a run on any route looks like, with the engine ready. *)
Lemma run_app_ready (req : Request) (s : S) :
  (data_request req = false /\
   exists body, run engine (app ready req) s = (inr (JSON body), [], s)) \/
  (data_request req = true /\
   exists c response,
     run engine (app ready req) s = (inr response, [c], snd (engine c s)) /\
     request_user_id req = Some (call_user_id c) /\
     mutating c = negb (listing_request req) /\
     match response with
     | JSON _ => True
     | HTTPException status_code _ => status_code = 500%Z
     end).
Proof.
  destruct req as [| |request|request|user_id|user_id].
  - left. split; [reflexivity|]. eexists. reflexivity.
  - left. split; [reflexivity|]. eexists. reflexivity.
  - right. split; [reflexivity|]. simpl app. eexists _, _.
    rewrite run_add_memory. simpl. split; [reflexivity|].
    split; [reflexivity|]. split; [reflexivity|].
    destruct (fst (engine _ s)) as [result|e]; [|reflexivity].
    now destruct (Py.str result).
  - right. split; [reflexivity|]. simpl app. eexists _, _.
    rewrite run_search_memories. split; [reflexivity|].
    split; [reflexivity|]. split; [reflexivity|].
    destruct (fst (engine _ s)) as [results|e]; [|reflexivity].
    now destruct (collect_memories search_record results).
  - right. split; [reflexivity|]. simpl app. eexists _, _.
    rewrite run_get_all_memories. split; [reflexivity|].
    split; [reflexivity|]. split; [reflexivity|].
    destruct (fst (engine _ s)) as [results|e]; [|reflexivity].
    now destruct (collect_memories listed_record results).
  - right. split; [reflexivity|]. simpl app. eexists _, _.
    rewrite run_clear_memories. split; [reflexivity|].
    split; [reflexivity|]. split; [reflexivity|].
    now destruct (fst (engine _ s)).
Qed.

(** With the engine unavailable. *)
Lemma run_app_unavailable (req : Request) (s : S) :
  (req = GET_root /\
   exists body, run engine (app None req) s = (inr (JSON body), [], s)) \/
  (req <> GET_root /\
   run engine (app None req) s =
   (inr (HTTPException 503 "Mem0 not initialized"), [], s)).
Proof.
  destruct req; try (right; split; [discriminate | reflexivity]).
  left. split; [reflexivity|]. eexists. reflexivity.
Qed.
End Routes.


(** X2. Whatever the state of the engine and of its handle, a request makes
    at most one engine call, and the call carries the [user_id] of the
    request: the gateway never reaches into another user's memories. *)
Theorem calls_carry_request_user {rt : PyRuntime} {S : Type}
    (engine : Memory.call -> S -> Memory.outcome * S) (s : S)
    (memory : option Memory.t) (req : Request) :
  (List.length (snd (fst (run engine (app memory req) s))) <= 1)%nat /\
  forall c : Memory.call,
    In c (snd (fst (run engine (app memory req) s))) ->
    request_user_id req = Some (call_user_id c).
Proof.
  destruct memory as [[]|].
  - fold ready.
    destruct (run_app_ready engine req s)
      as [(_ & body & ->) | (_ & c & response & -> & Huser & _)]; simpl.
    + split; [lia | contradiction].
    + split; [lia|]. now intros c' [<-|[]].
  - destruct (run_app_unavailable engine req s)
      as [(_ & body & ->) | (_ & ->)]; simpl; (split; [lia | contradiction]).
Qed.

(** X3. A call that changes what the engine stores comes from [/add] or
    [/clear] only: search and listing never write. *)
Theorem listing_routes_never_mutate {rt : PyRuntime} {S : Type}
    (engine : Memory.call -> S -> Memory.outcome * S) (s : S)
    (memory : option Memory.t) (req : Request) (c : Memory.call) :
  In c (snd (fst (run engine (app memory req) s))) ->
  mutating c = true ->
  (exists request, req = POST_add request) \/
  (exists user_id, req = DELETE_clear user_id).
Proof.
  destruct memory as [[]|].
  - fold ready.
    destruct (run_app_ready engine req s)
      as [(_ & body & ->) | (Hdata & c' & response & -> & _ & Hmut & _)]; simpl.
    + contradiction.
    + intros [<-|[]] Hc. rewrite Hc in Hmut.
      destruct req; try discriminate Hmut; try discriminate Hdata;
        [left | right]; eexists; reflexivity.
  - destruct (run_app_unavailable engine req s)
      as [(_ & body & ->) | (_ & ->)]; simpl; contradiction.
Qed.

Lemma listing_routes_never_mutate_witness :
  In (Memory.delete_all "alice")
    (snd (fst (run scripted (app (rt := example_runtime) ready (DELETE_clear "alice"))
                 [Memory.Returns PNone]))) /\
  mutating (Memory.delete_all "alice") = true /\
  ((exists request, DELETE_clear "alice" = POST_add request) \/
   (exists user_id, DELETE_clear "alice" = DELETE_clear user_id)).
Proof.
  split; [now left|]. split; [reflexivity|].
  exact (listing_routes_never_mutate (rt := example_runtime) scripted
           [Memory.Returns PNone] ready (DELETE_clear "alice")
           (Memory.delete_all "alice") (or_introl eq_refl) eq_refl).
Defined.

(** X4. The two probes are read off the handle alone: whatever the engine
    would do, [/] and [/health] make no call, leave its state alone, and
    [/health] reports healthy exactly when the handle is there. *)
Theorem probes_never_call_engine {rt : PyRuntime} {S : Type}
    (engine : Memory.call -> S -> Memory.outcome * S) (s : S)
    (memory : option Memory.t) (req : Request) :
  data_request req = false ->
  snd (fst (run engine (app memory req) s)) = [] /\
  snd (run engine (app memory req) s) = s /\
  (fst (fst (run engine (app memory GET_health) s)) =
     inr (JSON (PDict [ "status" :-> PStr "healthy" ])) <->
   memory <> None).
Proof.
  intros Hreq.
  destruct req; try discriminate Hreq; destruct memory as [[]|]; simpl;
    (split; [reflexivity|]); (split; [reflexivity|]);
    split; try discriminate; try reflexivity; intros H; now contradiction H.
Qed.

Lemma probes_never_call_engine_witness :
  data_request GET_health = false /\
  snd (fst (run scripted (app (rt := example_runtime) ready GET_health)
              [Memory.Raises (mkException "ConnectionError" "vector store unreachable")])) = [] /\
  snd (run scripted (app (rt := example_runtime) ready GET_health)
         [Memory.Raises (mkException "ConnectionError" "vector store unreachable")]) =
  [Memory.Raises (mkException "ConnectionError" "vector store unreachable")].
Proof.
  split; [reflexivity|].
  destruct (probes_never_call_engine (rt := example_runtime) scripted
              [Memory.Raises (mkException "ConnectionError" "vector store unreachable")]
              ready GET_health eq_refl) as (Hcalls & Hstate & _).
  split; assumption.
Defined.

(** ** Beyond the specification: the records *)

Lemma append_each_succeeds (record : pyval -> raising pyval) (items : list pyval) :
  Forall (fun x => exists m, record x = inr m) items ->
  forall memories, exists out, append_each record items memories = inr out.
Proof.
  induction 1 as [|x items (m & Hm) _ IH]; intros memories; simpl.
  - now exists memories.
  - rewrite Hm. simpl. apply IH.
Qed.

Lemma Forall2_Forall_left (record : pyval -> raising pyval) (items ms : list pyval) :
  Forall2 (fun r m => record r = inr m) items ms ->
  Forall (fun x => exists m, record x = inr m) items.
Proof.
  induction 1 as [|r m items ms Hr _ IH]; constructor; eauto.
Qed.

Lemma Forall_fixed_Forall2 (record : pyval -> raising pyval) (ms : list pyval) :
  Forall (fun m => record m = inr m) ms ->
  Forall2 (fun r m => record r = inr m) ms ms.
Proof.
  induction 1; constructor; assumption.
Qed.

(** The loop gets through exactly when every record can be built. *)
Lemma collect_memories_succeeds_iff (record : pyval -> raising pyval)
    (results : pyval) (records : list pyval) :
  carries results records ->
  (exists memories, collect_memories record results = inr memories) <->
  Forall (fun x => exists m, record x = inr m) records.
Proof.
  intros Hshape. rewrite (collect_memories_carries _ _ _ Hshape). split.
  - intros (memories & Hloop).
    apply append_each_inr in Hloop as (ms & _ & Hall).
    now apply Forall2_Forall_left in Hall.
  - intros Hall. now apply append_each_succeeds.
Qed.

(** The loop raises what the first record that cannot be built raises. *)
Lemma append_each_first_failure (record : pyval -> raising pyval)
    (prefix rest : list pyval) (bad : pyval) (e : PyException) :
  Forall (fun x => exists m, record x = inr m) prefix ->
  record bad = inl e ->
  forall memories, append_each record (prefix ++ bad :: rest) memories = inl e.
Proof.
  induction 1 as [|x prefix (m & Hm) _ IH]; intros Hbad memories; simpl.
  - now rewrite Hbad.
  - rewrite Hm. simpl. now apply IH.
Qed.

Section Records.
Context {rt : PyRuntime}.

(** A listing record is built from a dict whose [id] and [memory] print. *)
Lemma listed_record_succeeds_iff (r : pyval) :
  (exists m, listed_record r = inr m) <->
  Py.isinstance_dict r = true /\
  (exists id_, rbind (Py.get r "id" (PStr "")) Py.str = inr id_) /\
  (exists memory_, rbind (Py.get r "memory" (PStr "")) Py.str = inr memory_).
Proof.
  split.
  - intros (m & Hm).
    apply listed_record_inr in Hm as (fields & id_ & memory_ & -> & Hid & Hmemory & _).
    split; [reflexivity|]. split; [now exists id_ | now exists memory_].
  - intros (Hdict & (id_ & Hid) & (memory_ & Hmemory)).
    destruct r as [| | | | | | |fields]; try discriminate Hdict.
    simpl in Hid, Hmemory. unfold listed_record. simpl.
    rewrite Hid. simpl. rewrite Hmemory. simpl. eexists. reflexivity.
Qed.

(** A search record takes, besides, a score that converts. *)
Lemma search_record_succeeds_iff (r : pyval) :
  (exists m, search_record r = inr m) <->
  Py.isinstance_dict r = true /\
  (exists id_, rbind (Py.get r "id" (PStr "")) Py.str = inr id_) /\
  (exists memory_, rbind (Py.get r "memory" (PStr "")) Py.str = inr memory_) /\
  (exists score, rbind (Py.get r "score" (PFloat Py.zero)) Py.float = inr score).
Proof.
  split.
  - intros (m & Hm).
    apply search_record_inr in Hm
      as (fields & id_ & memory_ & score & -> & Hid & Hmemory & Hscore & _).
    split; [reflexivity|].
    split; [now exists id_|]. split; [now exists memory_ | now exists score].
  - intros (Hdict & (id_ & Hid) & (memory_ & Hmemory) & (score & Hscore)).
    destruct r as [| | | | | | |fields]; try discriminate Hdict.
    simpl in Hid, Hmemory, Hscore. unfold search_record. simpl.
    rewrite Hid. simpl. rewrite Hmemory. simpl. rewrite Hscore. simpl.
    eexists. reflexivity.
Qed.

Lemma search_record_fixed (r m : pyval) :
  search_record r = inr m -> search_record m = inr m.
Proof.
  intros Hm.
  apply search_record_inr in Hm
    as (fields & id_ & memory_ & score & _ & _ & _ & _ & ->).
  reflexivity.
Qed.

Lemma listed_record_fixed (r m : pyval) :
  listed_record r = inr m -> listed_record m = inr m.
Proof.
  intros Hm.
  apply listed_record_inr in Hm as (fields & id_ & memory_ & _ & _ & _ & ->).
  reflexivity.
Qed.

Lemma record_of_fixed (req : Request) (r m : pyval) :
  record_of req r = inr m -> record_of req m = inr m.
Proof.
  destruct req; simpl; first [apply search_record_fixed | apply listed_record_fixed].
Qed.
End Records.

(** X5. Normalizing is idempotent: the memories a route has collected,
    given back to it as a bare list, are collected unchanged. *)
Theorem collected_memories_are_fixed {rt : PyRuntime} (req : Request)
    (results : pyval) (memories : list pyval) :
  collect_memories (record_of req) results = inr memories ->
  collect_memories (record_of req) (PList memories) = inr memories.
Proof.
  intros Hcollect. rewrite collect_memories_list.
  rewrite (append_each_all (record_of req) memories memories); [reflexivity|].
  apply Forall_fixed_Forall2.
  apply (collect_memories_Forall (record_of req)
           (fun m => record_of req m = inr m) results); [|assumption].
  apply record_of_fixed.
Qed.

Lemma collected_memories_are_fixed_witness :
  collect_memories (record_of (rt := example_runtime) (GET_all "alice"))
    (PDict [ "results" :-> PList two_records ]) =
  inr [ PDict [ "id" :-> PStr "1"; "memory" :-> PStr "likes tea";
                "metadata" :-> PDict [] ];
        PDict [ "id" :-> PStr "2"; "memory" :-> PStr "lives in Oslo";
                "metadata" :-> PDict [] ] ] /\
  collect_memories (record_of (rt := example_runtime) (GET_all "alice"))
    (PList [ PDict [ "id" :-> PStr "1"; "memory" :-> PStr "likes tea";
                     "metadata" :-> PDict [] ];
             PDict [ "id" :-> PStr "2"; "memory" :-> PStr "lives in Oslo";
                     "metadata" :-> PDict [] ] ]) =
  inr [ PDict [ "id" :-> PStr "1"; "memory" :-> PStr "likes tea";
                "metadata" :-> PDict [] ];
        PDict [ "id" :-> PStr "2"; "memory" :-> PStr "lives in Oslo";
                "metadata" :-> PDict [] ] ].
Proof.
  split; [reflexivity|].
  exact (collected_memories_are_fixed (rt := example_runtime) (GET_all "alice")
           (PDict [ "results" :-> PList two_records ]) _ eq_refl).
Defined.

(** X6. Whenever the search record of an engine record can be built, so can
    its listing record, and it is the search record without the score: same
    [id], same [memory], same [metadata]. *)
Theorem listed_record_is_search_record_without_score {rt : PyRuntime}
    (r m : pyval) :
  search_record r = inr m ->
  exists (id_ memory_ score metadata_ : pyval),
    m = PDict [ "id" :-> id_; "memory" :-> memory_;
                "score" :-> score; "metadata" :-> metadata_ ] /\
    listed_record r =
    inr (PDict [ "id" :-> id_; "memory" :-> memory_; "metadata" :-> metadata_ ]).
Proof.
  intros Hm.
  apply search_record_inr in Hm
    as (fields & id_ & memory_ & score & -> & Hid & Hmemory & _ & ->).
  eexists _, _, _, _. split; [reflexivity|].
  unfold listed_record. simpl. rewrite Hid. simpl. now rewrite Hmemory.
Qed.

Lemma listed_record_is_search_record_without_score_witness :
  exists (id_ memory_ score metadata_ : pyval),
    PDict [ "id" :-> PStr "1"; "memory" :-> PStr "likes tea";
            "score" :-> PFloat nine_tenths; "metadata" :-> PDict [] ] =
    PDict [ "id" :-> id_; "memory" :-> memory_;
            "score" :-> score; "metadata" :-> metadata_ ] /\
    listed_record (rt := example_runtime)
      (PDict [ "id" :-> PStr "1"; "memory" :-> PStr "likes tea";
               "score" :-> PFloat nine_tenths ]) =
    inr (PDict [ "id" :-> id_; "memory" :-> memory_; "metadata" :-> metadata_ ]).
Proof.
  exact (listed_record_is_search_record_without_score (rt := example_runtime)
           (PDict [ "id" :-> PStr "1"; "memory" :-> PStr "likes tea";
                    "score" :-> PFloat nine_tenths ])
           _ eq_refl).
Defined.

(** X7. A record is read through three keys, and through ["score"] in a
    search: two engine records that agree on ["id"], ["memory"] and
    ["metadata"] give the same listing record whatever else they hold, a
    score included, and the same search record when they also agree on
    ["score"]. *)
Theorem records_read_their_keys_only {rt : PyRuntime}
    (fields fields' : list (pyval * pyval)) :
  Py.lookup "id" fields = Py.lookup "id" fields' ->
  Py.lookup "memory" fields = Py.lookup "memory" fields' ->
  Py.lookup "metadata" fields = Py.lookup "metadata" fields' ->
  listed_record (PDict fields) = listed_record (PDict fields') /\
  (Py.lookup "score" fields = Py.lookup "score" fields' ->
   search_record (PDict fields) = search_record (PDict fields')).
Proof.
  intros Hid Hmemory Hmetadata. split.
  - unfold listed_record. simpl. now rewrite Hid, Hmemory, Hmetadata.
  - intros Hscore. unfold search_record. simpl.
    now rewrite Hid, Hmemory, Hmetadata, Hscore.
Qed.

Lemma records_read_their_keys_only_witness :
  listed_record (rt := example_runtime)
    (PDict [ "id" :-> PStr "1"; "memory" :-> PStr "likes tea";
             "score" :-> PNone; "user_id" :-> PStr "alice" ]) =
  listed_record (rt := example_runtime)
    (PDict [ "memory" :-> PStr "likes tea"; "id" :-> PStr "1" ]).
Proof.
  exact (proj1 (records_read_their_keys_only (rt := example_runtime)
                  [ "id" :-> PStr "1"; "memory" :-> PStr "likes tea";
                    "score" :-> PNone; "user_id" :-> PStr "alice" ]
                  [ "memory" :-> PStr "likes tea"; "id" :-> PStr "1" ]
                  eq_refl eq_refl eq_refl)).
Defined.

(** ** Beyond the specification: replies and responses *)

(** X8. When one record of the reply cannot be built, the 500 of a listing
    route carries the exception of the first such record, whatever comes
    after it in the reply. *)
Theorem first_failing_record_decides {rt : PyRuntime} {S : Type}
    (engine : Memory.call -> S -> Memory.outcome * S) (s s' : S)
    (req : Request) (r : raising Response) (calls : list Memory.call)
    (results : pyval) (prefix rest : list pyval) (bad : pyval) (e : PyException) :
  listing_request req = true ->
  run engine (app ready req) s = (r, calls, s') ->
  (forall c, In c calls -> fst (engine c s) = Memory.Returns results) ->
  carries results (prefix ++ bad :: rest) ->
  Forall (fun x => exists m, record_of req x = inr m) prefix ->
  record_of req bad = inl e ->
  r = inr (HTTPException 500 (exc_str e)).
Proof.
  intros Hreq Hrun Hreply Hshape Hprefix Hbad.
  rewrite (listing_response engine req s s' r calls results Hreq Hrun Hreply).
  rewrite (collect_memories_carries _ _ _ Hshape).
  now rewrite (append_each_first_failure _ prefix rest bad e Hprefix Hbad).
Qed.

Lemma first_failing_record_decides_witness :
  carries
    (PList ([ PDict [ "id" :-> PStr "1" ] ] ++ PStr "likes tea" :: [ PNone ]))
    ([ PDict [ "id" :-> PStr "1" ] ] ++ PStr "likes tea" :: [ PNone ]) /\
  record_of (rt := example_runtime) (GET_all "alice") (PStr "likes tea") =
  inl (mkException "AttributeError" "'str' object has no attribute 'get'") /\
  fst (fst (run scripted (app (rt := example_runtime) ready (GET_all "alice"))
              [Memory.Returns
                 (PList ([ PDict [ "id" :-> PStr "1" ] ] ++ PStr "likes tea" :: [ PNone ]))])) =
  inr (HTTPException 500 "'str' object has no attribute 'get'").
Proof.
  split; [now left|]. split; [reflexivity|].
  refine (first_failing_record_decides (rt := example_runtime) scripted
            [Memory.Returns
               (PList ([ PDict [ "id" :-> PStr "1" ] ] ++ PStr "likes tea" :: [ PNone ]))]
            [] (GET_all "alice") _ [Memory.get_all "alice"]
            (PList ([ PDict [ "id" :-> PStr "1" ] ] ++ PStr "likes tea" :: [ PNone ]))
            [ PDict [ "id" :-> PStr "1" ] ] [ PNone ] (PStr "likes tea")
            (mkException "AttributeError" "'str' object has no attribute 'get'")
            eq_refl eq_refl (fun _ _ => eq_refl) (or_introl eq_refl) _ eq_refl).
  constructor; [|constructor]. eexists. reflexivity.
Defined.

(** X9. From a reply that carries a list of records, [GET /all] answers
    with a body exactly when every record is a dict whose [id] and [memory]
    print, that is when [str(record.get("id", ""))] and
    [str(record.get("memory", ""))] evaluate: a record that is no dict, or
    one whose [id] or [memory] has a [str] that raises, fails the request. *)
Theorem listing_succeeds_iff_records_print {rt : PyRuntime} {S : Type}
    (engine : Memory.call -> S -> Memory.outcome * S) (s s' : S)
    (user_id : string) (results : pyval) (records : list pyval) :
  carries results records ->
  engine (Memory.get_all user_id) s = (Memory.Returns results, s') ->
  (exists body,
      run engine (get_all_memories ready user_id) s =
      (inr (JSON body), [Memory.get_all user_id], s')) <->
  Forall (fun x =>
            Py.isinstance_dict x = true /\
            (exists id_, rbind (Py.get x "id" (PStr "")) Py.str = inr id_) /\
            (exists memory_,
                rbind (Py.get x "memory" (PStr "")) Py.str = inr memory_))
         records.
Proof.
  intros Hshape Hreply. rewrite run_get_all_memories, Hreply. simpl.
  pose proof (collect_memories_succeeds_iff listed_record _ _ Hshape) as Hiff.
  split.
  - intros (body & Hbody).
    destruct (collect_memories listed_record results) as [e|memories];
      [discriminate|].
    assert (Hall : Forall (fun x => exists m, listed_record x = inr m) records)
      by (apply Hiff; now exists memories).
    eapply Forall_impl; [|exact Hall]. intros x. apply listed_record_succeeds_iff.
  - intros Hprint.
    assert (Hall : Forall (fun x => exists m, listed_record x = inr m) records)
      by (eapply Forall_impl; [|exact Hprint]; intros x; apply listed_record_succeeds_iff).
    apply Hiff in Hall as (memories & ->). eexists. reflexivity.
Qed.

Lemma listing_succeeds_iff_records_print_witness :
  carries (PDict [ "results" :-> PList two_records ]) two_records /\
  ((exists body,
       run scripted (get_all_memories (rt := example_runtime) ready "alice")
         [Memory.Returns (PDict [ "results" :-> PList two_records ])] =
       (inr (JSON body), [Memory.get_all "alice"], [])) <->
   Forall (fun x =>
             Py.isinstance_dict x = true /\
             (exists id_,
                 rbind (Py.get x "id" (PStr "")) (Py.str (rt := example_runtime)) =
                 inr id_) /\
             (exists memory_,
                 rbind (Py.get x "memory" (PStr "")) (Py.str (rt := example_runtime)) =
                 inr memory_))
          two_records).
Proof.
  split; [right; eexists; split; reflexivity|].
  exact (listing_succeeds_iff_records_print (rt := example_runtime) scripted
           [Memory.Returns (PDict [ "results" :-> PList two_records ])] []
           "alice" (PDict [ "results" :-> PList two_records ]) two_records
           (or_intror (ex_intro _ [ "results" :-> PList two_records ]
                         (conj eq_refl eq_refl)))
           eq_refl).
Defined.

(** X10. From a reply that carries a list of records, [POST /search]
    answers with a body exactly when every record is a dict whose [id] and
    [memory] print and whose score converts, that is when
    [str(record.get("id", ""))], [str(record.get("memory", ""))] and
    [float(record.get("score", 0.0))] evaluate. *)
Theorem search_succeeds_iff_records_convert {rt : PyRuntime} {S : Type}
    (engine : Memory.call -> S -> Memory.outcome * S) (s s' : S)
    (request : SearchMemoryRequest.t) (results : pyval) (records : list pyval) :
  carries results records ->
  engine (search_call request) s = (Memory.Returns results, s') ->
  (exists body,
      run engine (search_memories ready request) s =
      (inr (JSON body), [search_call request], s')) <->
  Forall (fun x =>
            Py.isinstance_dict x = true /\
            (exists id_, rbind (Py.get x "id" (PStr "")) Py.str = inr id_) /\
            (exists memory_,
                rbind (Py.get x "memory" (PStr "")) Py.str = inr memory_) /\
            (exists score,
                rbind (Py.get x "score" (PFloat Py.zero)) Py.float = inr score))
         records.
Proof.
  intros Hshape Hreply. rewrite run_search_memories, Hreply. simpl.
  pose proof (collect_memories_succeeds_iff search_record _ _ Hshape) as Hiff.
  split.
  - intros (body & Hbody).
    destruct (collect_memories search_record results) as [e|memories];
      [discriminate|].
    assert (Hall : Forall (fun x => exists m, search_record x = inr m) records)
      by (apply Hiff; now exists memories).
    eapply Forall_impl; [|exact Hall]. intros x. apply search_record_succeeds_iff.
  - intros Hconvert.
    assert (Hall : Forall (fun x => exists m, search_record x = inr m) records)
      by (eapply Forall_impl; [|exact Hconvert]; intros x; apply search_record_succeeds_iff).
    apply Hiff in Hall as (memories & ->). eexists. reflexivity.
Qed.

Lemma search_succeeds_iff_records_convert_witness :
  carries (PList two_records) two_records /\
  ((exists body,
       run scripted
         (search_memories (rt := example_runtime) ready
            (SearchMemoryRequest.make "drink preference" "alice" 5))
         [Memory.Returns (PList two_records)] =
       (inr (JSON body), [Memory.search "drink preference" "alice" 5], [])) <->
   Forall (fun x =>
             Py.isinstance_dict x = true /\
             (exists id_,
                 rbind (Py.get x "id" (PStr "")) (Py.str (rt := example_runtime)) =
                 inr id_) /\
             (exists memory_,
                 rbind (Py.get x "memory" (PStr "")) (Py.str (rt := example_runtime)) =
                 inr memory_) /\
             (exists score,
                 rbind (Py.get x "score" (PFloat Py.zero))
                   (Py.float (rt := example_runtime)) = inr score))
          two_records).
Proof.
  split; [now left|].
  exact (search_succeeds_iff_records_convert (rt := example_runtime) scripted
           [Memory.Returns (PList two_records)] []
           (SearchMemoryRequest.make "drink preference" "alice" 5)
           (PList two_records) two_records (or_introl eq_refl) eq_refl).
Defined.

(** X11. A dict reply is read through ["results"] and nothing else: when
    that value cannot be iterated ([None], a number, a bool) a listing route
    answers 500 with the [TypeError] of the loop, even if the dict holds
    records under another key. *)
Theorem results_not_iterable_is_500 {rt : PyRuntime} {S : Type}
    (engine : Memory.call -> S -> Memory.outcome * S) (s s' : S)
    (req : Request) (r : raising Response) (calls : list Memory.call)
    (bindings : list (pyval * pyval)) (v : pyval) :
  listing_request req = true ->
  run engine (app ready req) s = (r, calls, s') ->
  (forall c, In c calls -> fst (engine c s) = Memory.Returns (PDict bindings)) ->
  Py.lookup "results" bindings = Some v ->
  match v with
  | PNone | PBool _ | PInt _ | PFloat _ => True
  | _ => False
  end ->
  r = inr (HTTPException 500 ("'" ++ Py.type_name v ++ "' object is not iterable")).
Proof.
  intros Hreq Hrun Hreply Hv Hscalar.
  rewrite (listing_response engine req s s' r calls _ Hreq Hrun Hreply).
  rewrite (collect_memories_results _ _ _ Hv).
  now destruct v.
Qed.

Lemma results_not_iterable_is_500_witness :
  Py.lookup "results" [ "results" :-> PNone; "memories" :-> PList two_records ] =
  Some PNone /\
  fst (fst (run scripted (app (rt := example_runtime) ready (GET_all "alice"))
              [Memory.Returns
                 (PDict [ "results" :-> PNone; "memories" :-> PList two_records ])])) =
  inr (HTTPException 500 "'NoneType' object is not iterable").
Proof.
  split; [reflexivity|].
  exact (results_not_iterable_is_500 (rt := example_runtime) scripted
           [Memory.Returns
              (PDict [ "results" :-> PNone; "memories" :-> PList two_records ])]
           [] (GET_all "alice") _ [Memory.get_all "alice"]
           [ "results" :-> PNone; "memories" :-> PList two_records ] PNone
           eq_refl eq_refl (fun _ _ => eq_refl) eq_refl I).
Defined.

(** X12. The count of a successful listing route is the number of records
    in the engine's reply: neither the [limit] of the request nor anything
    else in the reply changes it. *)
Theorem count_is_number_of_engine_records {rt : PyRuntime} {S : Type}
    (engine : Memory.call -> S -> Memory.outcome * S) (s s' : S)
    (req : Request) (body : list (pyval * pyval)) (calls : list Memory.call)
    (results : pyval) (records : list pyval) :
  listing_request req = true ->
  run engine (app ready req) s = (inr (JSON (PDict body)), calls, s') ->
  (forall c, In c calls -> fst (engine c s) = Memory.Returns results) ->
  carries results records ->
  Py.lookup "count" body = Some (PInt (Z.of_nat (List.length records))).
Proof.
  intros Hreq Hrun Hreply Hshape.
  pose proof (listing_response engine req s s' _ calls results Hreq Hrun Hreply)
    as Hbody.
  destruct (collect_memories_records (record_of req) _ _ Hshape)
    as [(memories & Hcollect & Hlen & _) | (x & e & _ & _ & Hcollect)];
    rewrite Hcollect in Hbody; [|discriminate].
  injection Hbody as ->. simpl. now rewrite Hlen.
Qed.

Lemma count_is_number_of_engine_records_witness :
  carries (PList two_records) two_records /\
  Py.lookup "count"
    [ "success" :-> PBool true; "count" :-> PInt 2;
      "memories" :-> PList
        [ PDict [ "id" :-> PStr "1"; "memory" :-> PStr "likes tea";
                  "score" :-> PFloat nine_tenths; "metadata" :-> PDict [] ];
          PDict [ "id" :-> PStr "2"; "memory" :-> PStr "lives in Oslo";
                  "score" :-> PFloat Py.one; "metadata" :-> PDict [] ] ] ] =
  Some (PInt (Z.of_nat (List.length two_records))).
Proof.
  split; [now left|].
  exact (count_is_number_of_engine_records (rt := example_runtime) scripted
           [Memory.Returns (PList two_records)] []
           (POST_search (SearchMemoryRequest.make "drink preference" "alice" 1))
           _ [Memory.search "drink preference" "alice" 1]
           (PList two_records) two_records
           eq_refl eq_refl (fun _ _ => eq_refl) (or_introl eq_refl)).
Defined.

(** X13. Only the records of a reply reach the response: two replies that
    carry the same list of records, in either shape and whatever else a
    dict holds beside ["results"], get the same response from a listing
    route. *)
Theorem same_records_same_response {rt : PyRuntime} {S : Type}
    (engine : Memory.call -> S -> Memory.outcome * S) (s1 s2 : S)
    (req : Request) (results1 results2 : pyval) (records : list pyval) :
  listing_request req = true ->
  carries results1 records ->
  carries results2 records ->
  (forall c, In c (snd (fst (run engine (app ready req) s1))) ->
             fst (engine c s1) = Memory.Returns results1) ->
  (forall c, In c (snd (fst (run engine (app ready req) s2))) ->
             fst (engine c s2) = Memory.Returns results2) ->
  fst (fst (run engine (app ready req) s1)) =
  fst (fst (run engine (app ready req) s2)).
Proof.
  intros Hreq H1 H2 Hreply1 Hreply2.
  destruct (run engine (app ready req) s1) as [[r1 calls1] s1'] eqn:Hrun1.
  destruct (run engine (app ready req) s2) as [[r2 calls2] s2'] eqn:Hrun2.
  simpl in *.
  rewrite (listing_response engine req s1 s1' r1 calls1 results1 Hreq Hrun1 Hreply1).
  rewrite (listing_response engine req s2 s2' r2 calls2 results2 Hreq Hrun2 Hreply2).
  now rewrite (collect_memories_carries _ _ _ H1), (collect_memories_carries _ _ _ H2).
Qed.

Lemma same_records_same_response_witness :
  carries (PList two_records) two_records /\
  carries (PDict [ "relations" :-> PList [ PStr "alice -- likes -- tea" ];
                   "results" :-> PList two_records ]) two_records /\
  fst (fst (run scripted (app (rt := example_runtime) ready (GET_all "alice"))
              [Memory.Returns (PList two_records)])) =
  fst (fst (run scripted (app (rt := example_runtime) ready (GET_all "alice"))
              [Memory.Returns
                 (PDict [ "relations" :-> PList [ PStr "alice -- likes -- tea" ];
                          "results" :-> PList two_records ])])).
Proof.
  split; [now left|].
  split; [right; eexists; split; reflexivity|].
  exact (same_records_same_response (rt := example_runtime) scripted
           [Memory.Returns (PList two_records)]
           [Memory.Returns
              (PDict [ "relations" :-> PList [ PStr "alice -- likes -- tea" ];
                       "results" :-> PList two_records ])]
           (GET_all "alice") (PList two_records)
           (PDict [ "relations" :-> PList [ PStr "alice -- likes -- tea" ];
                    "results" :-> PList two_records ])
           two_records eq_refl (or_introl eq_refl)
           (or_intror (ex_intro _ [ "relations" :-> PList [ PStr "alice -- likes -- tea" ];
                                    "results" :-> PList two_records ]
                         (conj eq_refl eq_refl)))
           (fun _ _ => eq_refl) (fun _ _ => eq_refl)).
Defined.

(** ** Beyond the specification: the start of the process *)

Lemma truthy_key (key : string) :
  Py.truthy (PStr key) = false <-> key = "".
Proof.
  destruct key as [|a key]; simpl; split; try reflexivity; discriminate.
Qed.

(** With a key in the environment the module body completes, and [memory]
    is the engine or [None] as the constructor ended. *)
Lemma startup_with_key (environ : list (string * string))
    (from_config : pyval -> raising Memory.t) (key : string) :
  getenv environ "OPENAI_API_KEY" = Some key ->
  key <> "" ->
  startup environ from_config =
  inr match from_config config with
      | inr engine => Some engine
      | inl _ => None
      end.
Proof.
  intros Hkey Hnonempty. unfold startup. rewrite Hkey.
  destruct (Py.truthy (PStr key)) eqn:Htruthy; simpl.
  - now destruct (from_config config).
  - now apply truthy_key in Htruthy.
Qed.




(** Start, then serve, with a constructor that returns: the liveness
    check reports "running", and a data route reaches the engine. *)
Theorem successful_construction_serves {rt : PyRuntime} {S : Type}
    (engine : Memory.call -> S -> Memory.outcome * S) (s : S)
    (environ : list (string * string)) (from_config : pyval -> raising Memory.t)
    (key : string) (handle : Memory.t) (req : Request) :
  getenv environ "OPENAI_API_KEY" = Some key ->
  key <> "" ->
  from_config config = inr handle ->
  exists memory,
    startup environ from_config = inr memory /\
    run engine (app memory GET_root) s =
      (inr (JSON (PDict [ "service" :-> PStr "ProjectZ Mem0 Service";
                          "status" :-> PStr "running";
                          "version" :-> PStr "1.0.0" ])), [], s) /\
    (data_request req = true ->
     List.length (snd (fst (run engine (app memory req) s))) = 1%nat).
Proof.
  intros Hkey Hnonempty Hctor. exists (Some handle).
  rewrite (startup_with_key _ _ _ Hkey Hnonempty), Hctor.
  split; [reflexivity|]. split; [reflexivity|].
  intros Hdata. destruct handle. fold ready.
  destruct (run_app_ready engine req s)
    as [(Hprobe & _) | (_ & c & response & -> & _)].
  - rewrite Hdata in Hprobe. discriminate.
  - reflexivity.
Qed.

Lemma successful_construction_serves_witness :
  getenv [ ("OPENAI_API_KEY", "sk-test") ] "OPENAI_API_KEY" = Some "sk-test" /\
  exists memory,
    startup [ ("OPENAI_API_KEY", "sk-test") ] (fun _ => inr Memory.from_config) =
    inr memory /\
    run scripted (app (rt := example_runtime) memory GET_root) [] =
      (inr (JSON (PDict [ "service" :-> PStr "ProjectZ Mem0 Service";
                          "status" :-> PStr "running";
                          "version" :-> PStr "1.0.0" ])), [], []) /\
    (data_request (DELETE_clear "alice") = true ->
     List.length
       (snd (fst (run scripted
                    (app (rt := example_runtime) memory (DELETE_clear "alice")) []))) =
     1%nat).
Proof.
  split; [reflexivity|].
  apply (successful_construction_serves (rt := example_runtime) scripted []
           [ ("OPENAI_API_KEY", "sk-test") ] (fun _ => inr Memory.from_config)
           "sk-test" Memory.from_config (DELETE_clear "alice") eq_refl);
    [discriminate | reflexivity].
Defined.

(** ** Values that do not print *)

(** The runtime of the examples on an int, without computing the bound. *)
Lemma example_runtime_int_within_limit (z : Z) :
  (Z.abs z < 10 ^ int_max_str_digits)%Z ->
  Py.str (rt := example_runtime) (PInt z) =
  inr (NilZero.string_of_int (Z.to_int z)).
Proof.
  intros Hlt. unfold Py.str, py_repr, example_runtime. cbv beta iota.
  destruct (Z.ltb_spec (Z.abs z) (10 ^ int_max_str_digits)) as [_|Hle];
    [reflexivity|].
  exfalso. apply (Z.lt_irrefl (Z.abs z)).
  eapply Z.lt_le_trans; eassumption.
Qed.

Lemma example_runtime_int_beyond_limit (z : Z) :
  (10 ^ int_max_str_digits <= Z.abs z)%Z ->
  Py.str (rt := example_runtime) (PInt z) =
  inl (mkException "ValueError"
         "Exceeds the limit (4300 digits) for integer string conversion; use sys.set_int_max_str_digits() to increase the limit").
Proof.
  intros Hle. unfold Py.str, py_repr, example_runtime. cbv beta iota.
  destruct (Z.ltb_spec (Z.abs z) (10 ^ int_max_str_digits)) as [Hlt|_];
    [|reflexivity].
  exfalso. apply (Z.lt_irrefl (Z.abs z)).
  eapply Z.lt_le_trans; eassumption.
Qed.

Lemma ten_to_the_limit_is_beyond :
  (10 ^ int_max_str_digits <= Z.abs (10 ^ 4300))%Z.
Proof.
  rewrite Z.abs_eq; [apply Z.le_refl|].
  apply Z.pow_nonneg. discriminate.
Qed.

Lemma seven_is_within_limit : (Z.abs 7 < 10 ^ int_max_str_digits)%Z.
Proof.
  apply (Z.lt_le_trans _ (10 ^ 1)); [reflexivity|].
  apply Z.pow_le_mono_r; [reflexivity | discriminate].
Qed.

(** The listing record of a dict whose [id] does not print raises what
    its [str] raises. *)
Lemma listed_record_raises_on_id {rt : PyRuntime}
    (fields : list (pyval * pyval)) (v : pyval) (e : PyException) :
  Py.lookup "id" fields = Some v ->
  Py.str v = inl e ->
  listed_record (PDict fields) = inl e.
Proof.
  intros Hv He. unfold listed_record. simpl. rewrite Hv. now rewrite He.
Qed.

(** The listing record of a dict whose [id] and [memory] print. *)
Lemma listed_record_prints {rt : PyRuntime}
    (fields : list (pyval * pyval)) (v : pyval) (id_ memory_ : string) :
  Py.lookup "id" fields = Some v ->
  Py.str v = inr id_ ->
  Py.str match Py.lookup "memory" fields with
         | Some w => w | None => PStr "" end = inr memory_ ->
  listed_record (PDict fields) =
  inr (PDict [ "id" :-> PStr id_; "memory" :-> PStr memory_;
               "metadata" :-> match Py.lookup "metadata" fields with
                              | Some w => w | None => PDict [] end ]).
Proof.
  intros Hv Hid Hmemory. unfold listed_record. simpl.
  rewrite Hv, Hid. simpl. now rewrite Hmemory.
Qed.

(** An id that is a small int is printed in decimal. *)
Example listing_prints_int_id :
  run scripted (get_all_memories (rt := example_runtime) ready "alice")
    [Memory.Returns (PList [ PDict [ "id" :-> PInt 7; "memory" :-> PStr "likes tea" ] ])] =
  (inr (JSON (PDict
     [ "success" :-> PBool true; "count" :-> PInt 1;
       "memories" :-> PList
         [ PDict [ "id" :-> PStr "7"; "memory" :-> PStr "likes tea";
                   "metadata" :-> PDict [] ] ] ])),
   [Memory.get_all "alice"], []).
Proof.
  rewrite run_get_all_memories. unfold scripted. cbv beta iota delta [fst snd].
  rewrite collect_memories_list. cbv beta iota delta [append_each].
  rewrite (listed_record_prints
             [ "id" :-> PInt 7; "memory" :-> PStr "likes tea" ] (PInt 7)
             "7" "likes tea" eq_refl
             (example_runtime_int_within_limit 7 seven_is_within_limit) eq_refl).
  reflexivity.
Qed.

(** An id of 4301 digits is a dict field all the same, and [str] raises on
    it inside the [try]: the listing fails. *)
Example listing_fails_on_id_beyond_digit_limit :
  run scripted (get_all_memories (rt := example_runtime) ready "alice")
    [Memory.Returns (PList [ PDict [ "id" :-> PInt (10 ^ 4300) ] ])] =
  (inr (HTTPException 500
          "Exceeds the limit (4300 digits) for integer string conversion; use sys.set_int_max_str_digits() to increase the limit"),
   [Memory.get_all "alice"], []).
Proof.
  rewrite run_get_all_memories. unfold scripted. cbv beta iota delta [fst snd].
  rewrite collect_memories_list. cbv beta iota delta [append_each].
  rewrite (listed_record_raises_on_id (rt := example_runtime)
             [ "id" :-> PInt (10 ^ 4300) ] (PInt (10 ^ 4300)) _ eq_refl
             (example_runtime_int_beyond_limit _ ten_to_the_limit_is_beyond)).
  reflexivity.
Qed.

(** The same int as the engine's result of [add]: the call has returned,
    the log line of line 142 raises, and the response is 500. *)
Example add_fails_on_result_beyond_digit_limit :
  run scripted
    (add_memory (rt := example_runtime) ready
       (AddMemoryRequest.make [ mkMessage "user" "I like tea" ] "alice" None))
    [Memory.Returns (PInt (10 ^ 4300))] =
  (inr (HTTPException 500
          "Exceeds the limit (4300 digits) for integer string conversion; use sys.set_int_max_str_digits() to increase the limit"),
   [Memory.add
      (PList [ PDict [ "role" :-> PStr "user"; "content" :-> PStr "I like tea" ] ])
      "alice" (PDict [])],
   []).
Proof.
  rewrite run_add_memory. unfold scripted. cbv beta iota delta [fst snd].
  rewrite (example_runtime_int_beyond_limit _ ten_to_the_limit_is_beyond).
  reflexivity.
Qed.
